(** * ExternalSearch: the Perplexity search adapter of [external_search.py]

    A shallow embedding of the class [ExternalSearch] and the properties of
    its result envelopes.

    Conventions of the embedding.
    - A Python [str] is a [string].  The string operations of the module
      (splitting on the newline, substring tests against ASCII needles, a
      regular expression over ASCII character classes) commute with UTF-8
      encoding, so a [string] may be read as the UTF-8 bytes of the text.
      Indexing a string, which happens only when the response holds a string
      where a list is expected, yields a one-character string that the next
      subscript rejects whatever it holds.
    - A Python [int] is a [Z]; [str(n)] and the [{n}] of an f-string are
      stdpp's [pretty].
    - A Python [dict] with [str] keys is a [gmap string _]; insertion order,
      which no caller observes here, is not modelled.
    - The coroutines are run to completion: [await e] is the sequential
      evaluation of [e].  The module [Interruptible] adds the runs in which
      the await of the client call ends with an exception outside
      [Exception], such as the cancellation of the task. *)

From Stdlib Require Import ZArith Ascii String List Lia.
From stdpp Require Import base gmap sets list strings pretty.

Set Warnings "-register-all".
Local Open Scope Z_scope.

(* ===================================================================== *)
(** * Python strings *)
(* ===================================================================== *)

Module PyStr.

(** [s.startswith(p)], returning what follows the prefix. *)
Fixpoint strip_prefix (p s : string) : option string :=
  match p with
  | EmptyString => Some s
  | String a p' =>
      match s with
      | EmptyString => None
      | String b s' => if Ascii.eqb a b then strip_prefix p' s' else None
      end
  end.

Definition startswith (s p : string) : bool :=
  match strip_prefix p s with Some _ => true | None => false end.

(** [needle in s]: some suffix of [s] starts with [needle]. *)
Fixpoint contains (needle s : string) : bool :=
  startswith s needle ||
  match s with
  | EmptyString => false
  | String _ s' => contains needle s'
  end.

(** [s.split(sep)] for a one-character separator: the pieces between the
    separators, so that [n] separators give [n + 1] pieces. *)
Fixpoint split (sep : ascii) (s : string) : list string :=
  match s with
  | EmptyString => [EmptyString]
  | String c s' =>
      if Ascii.eqb c sep then EmptyString :: split sep s'
      else match split sep s' with
           | [] => [String c EmptyString]
           | piece :: pieces => String c piece :: pieces
           end
  end.

(** [sep.join(parts)]. *)
Fixpoint join (sep : string) (parts : list string) : string :=
  match parts with
  | [] => ""
  | [p] => p
  | p :: ps => p +:+ sep +:+ join sep ps
  end.

Definition newline : ascii := ascii_of_nat 10.

End PyStr.

(* ===================================================================== *)
(** * The URL pattern of [_extract_sources]

    [re.findall(r'http[s]?://(?:[a-zA-Z]|[0-9]|[$-_@.&+]|[!*\\(\\),]|(?:%[0-9a-fA-F][0-9a-fA-F]))+', line)]

    The pattern has no capturing group, so [findall] returns the matched
    texts.  Nothing follows the repetition, so the backtracking matcher never
    gives back what the greedy loop took: the match at a position is the
    scheme followed by the longest run of atoms, each atom being the first
    alternative that applies. *)
(* ===================================================================== *)

Module Re.
Import PyStr.

Definition code (c : ascii) : N := N_of_ascii c.

Definition in_range (lo hi c : ascii) : bool :=
  ((code lo <=? code c) && (code c <=? code hi))%N.

Definition is_char (x c : ascii) : bool := Ascii.eqb x c.

(** [[a-zA-Z]] *)
Definition alt_letter (c : ascii) : bool :=
  in_range "a" "z" c || in_range "A" "Z" c.

(** [[0-9]] *)
Definition alt_digit (c : ascii) : bool := in_range "0" "9" c.

(** [[$-_@.&+]]: the range from [$] to [_], then [@], [.], [&], [+]. *)
Definition alt_punct (c : ascii) : bool :=
  in_range "$" "_" c || is_char "@" c || is_char "." c
  || is_char "&" c || is_char "+" c.

(** [[!*\\(\\),]]: in the raw string the two characters [\\] are an escaped
    backslash, so the class is [!], [*], backslash, [(], [)], [,]. *)
Definition alt_misc (c : ascii) : bool :=
  is_char "!" c || is_char "*" c || is_char "\" c || is_char "(" c
  || is_char ")" c || is_char "," c.

(** [[0-9a-fA-F]] *)
Definition hex_digit (c : ascii) : bool :=
  in_range "0" "9" c || in_range "a" "f" c || in_range "A" "F" c.

(** The four one-character alternatives, in the order of the pattern. *)
Definition one_char_atom (c : ascii) : bool :=
  alt_letter c || alt_digit c || alt_punct c || alt_misc c.

(** [(?: ... )*] taken greedily: the text the loop consumes from the front
    of [s].  The fifth alternative, a percent sign and two hexadecimal
    digits, is tried only when the four one-character classes reject. *)
Fixpoint atoms (s : string) : string :=
  match s with
  | EmptyString => EmptyString
  | String c s' =>
      if one_char_atom c then String c (atoms s')
      else if is_char "%" c then
        match s' with
        | String h1 (String h2 s'') =>
            if hex_digit h1 && hex_digit h2
            then String c (String h1 (String h2 (atoms s'')))
            else EmptyString
        | _ => EmptyString
        end
      else EmptyString
  end.

(** [http[s]?://]: the scheme text matched and what follows it.  The
    optional [s] is tried first; without it the separator must follow
    [http] at once. *)
Definition scheme (s : string) : option (string * string) :=
  match strip_prefix "http" s with
  | None => None
  | Some r =>
      let with_s :=
        match r with
        | String c r1 => if is_char "s" c then strip_prefix "://" r1 else None
        | EmptyString => None
        end in
      match with_s with
      | Some r2 => Some ("https://", r2)
      | None =>
          match strip_prefix "://" r with
          | Some r2 => Some ("http://", r2)
          | None => None
          end
      end
  end.

(** The match starting at the first character of [s], if there is one: the
    repetition needs at least one atom. *)
Definition match_here (s : string) : option string :=
  match scheme s with
  | None => None
  | Some (sch, r) =>
      match atoms r with
      | EmptyString => None
      | body => Some (sch +:+ body)
      end
  end.

(** [findall]: scan from the left; after a match the scan resumes at its
    end, otherwise one character further.  [skip] counts the characters
    of the last match that are still to be passed over. *)
Fixpoint findall_from (skip : nat) (s : string) {struct s} : list string :=
  match s with
  | EmptyString => []
  | String _ s' =>
      match skip with
      | S k => findall_from k s'
      | O =>
          match match_here s with
          | Some m => m :: findall_from (String.length m - 1) s'
          | None => findall_from 0 s'
          end
      end
  end.

Definition findall (s : string) : list string := findall_from 0 s.

End Re.

(* ===================================================================== *)
(** * Source extraction *)
(* ===================================================================== *)

(** The test of the loop body: ['http' in line or 'www.' in line]. *)
Definition mentions_url (line : string) : bool :=
  PyStr.contains "http" line || PyStr.contains "www." line.

(** The loop of [_extract_sources]: the matches of the lines that mention
    [http] or [www.], in order of appearance. *)
Definition scan_lines (lines : list string) : list string :=
  foldl (fun sources line =>
           if mentions_url line then sources ++ Re.findall line else sources)
        [] lines.

(** [list(set(sources))].  The iteration order of a Python set of strings is
    unspecified; [elements] fixes one, and the properties below are stated
    up to order wherever the order matters. *)
Definition _extract_sources (answer : string) : list string :=
  let sources := scan_lines (PyStr.split PyStr.newline answer) in
  elements (list_to_set sources : gset string).


(* ===================================================================== *)
(** * Python values, exceptions and the world the adapter runs in *)
(* ===================================================================== *)

(** The values that [json.loads] builds and that the result envelopes hold.
    A float is kept as its [repr]. *)
Inductive pyval :=
| PNone
| PBool (b : bool)
| PInt (n : Z)
| PFloat (repr : string)
| PStr (s : string)
| PList (l : list pyval)
| PDict (d : gmap string pyval).

(** An instance of [Exception]: its class and the text [str(e)] gives.
    Exceptions that derive from [BaseException] only are not of this type;
    they are the interruptions of the module [Interruptible] below. *)
Record exn := Exn { exn_class : string; exn_text : string }.

Inductive outcome (A : Type) :=
| Ret (a : A)
| Raise (e : exn).
Arguments Ret {A} a.
Arguments Raise {A} e.

(** [type(v).__name__] *)
Definition type_name (v : pyval) : string :=
  match v with
  | PNone => "NoneType"
  | PBool _ => "bool"
  | PInt _ => "int"
  | PFloat _ => "float"
  | PStr _ => "str"
  | PList _ => "list"
  | PDict _ => "dict"
  end.

(** [bool(v)] *)
Definition truthy (v : pyval) : bool :=
  match v with
  | PNone => false
  | PBool b => b
  | PInt n => negb (n =? 0)
  | PFloat r => negb (String.eqb r "0.0" || String.eqb r "-0.0")
  | PStr s => negb (String.eqb s "")
  | PList l => match l with [] => false | _ => true end
  | PDict d => negb (bool_decide (d = ∅))
  end.

Inductive key := KStr (s : string) | KInt (n : Z).

(** [repr] of a subscript; for a string this is the text between single
    quotes, which is what CPython prints for the keys used here. *)
Definition key_repr (k : key) : string :=
  match k with
  | KStr s => "'" +:+ s +:+ "'"
  | KInt n => pretty n
  end.

(** [seq[n]] with Python's negative indices. *)
Definition index {A} (l : list A) (n : Z) : option A :=
  if 0 <=? n then l !! Z.to_nat n
  else if 0 <=? Z.of_nat (length l) + n then l !! Z.to_nat (Z.of_nat (length l) + n)
  else None.

Definition chars (s : string) : list string :=
  map (fun c => String c EmptyString) (list_ascii_of_string s).

(** [v[k]], with the exceptions of CPython 3.11. *)
Definition getitem (v : pyval) (k : key) : outcome pyval :=
  match v, k with
  | PDict d, KStr s =>
      match d !! s with
      | Some x => Ret x
      | None => Raise (Exn "KeyError" (key_repr k))
      end
  | PDict _, KInt _ => Raise (Exn "KeyError" (key_repr k))
  | PList l, KInt n =>
      match index l n with
      | Some x => Ret x
      | None => Raise (Exn "IndexError" "list index out of range")
      end
  | PList _, KStr _ =>
      Raise (Exn "TypeError" "list indices must be integers or slices, not str")
  | PStr s, KInt n =>
      match index (chars s) n with
      | Some c => Ret (PStr c)
      | None => Raise (Exn "IndexError" "string index out of range")
      end
  | PStr _, KStr _ =>
      Raise (Exn "TypeError" "string indices must be integers, not 'str'")
  | _, _ =>
      Raise (Exn "TypeError" ("'" +:+ type_name v +:+ "' object is not subscriptable"))
  end.

(** [datetime.now()] as the clock hands it out. *)
Record datetime := {
  year : N; month : N; day : N;
  hour : N; minute : N; second : N; microsecond : N
}.

Fixpoint zeros (n : nat) : string :=
  match n with O => "" | S n' => String "0" (zeros n') end.

(** [%0<width>d] *)
Definition zfill (width : nat) (n : N) : string :=
  let digits := pretty n in
  zeros (width - String.length digits) +:+ digits.

(** [datetime.isoformat()]: [YYYY-MM-DDTHH:MM:SS], followed by [.ffffff]
    when the microseconds are not zero. *)
Definition isoformat (t : datetime) : string :=
  zfill 4 (year t) +:+ "-" +:+ zfill 2 (month t) +:+ "-" +:+ zfill 2 (day t)
  +:+ "T" +:+ zfill 2 (hour t) +:+ ":" +:+ zfill 2 (minute t) +:+ ":"
  +:+ zfill 2 (second t)
  +:+ (if (microsecond t =? 0)%N then "" else "." +:+ zfill 6 (microsecond t)).

(** A request as [httpx] receives it. *)
Record request := {
  req_method : string;
  req_url : string;
  req_headers : gmap string string;
  req_json : option pyval;
  req_timeout : Z
}.

(** What the adapter reads of a response: the status code and what
    [response.json()] gives, which raises on a body that is not JSON. *)
Record response := {
  status_code : Z;
  json : outcome pyval
}.

(** The world of one run: the simulated transport, which answers a request
    or raises; the successive readings of the clock; and what the adapter has
    done so far, namely the requests it issued and the lines it logged with
    [logger.error], oldest first. *)
Record world := {
  transport : request -> outcome response;
  clock : nat -> datetime;
  clock_reads : nat;
  sent : list request;
  logged : list string
}.

(** ** Computations: state passing with exceptions

    These are the runs in which whatever is raised is an instance of
    [Exception].  The runs in which the awaited client call ends with an
    exception outside [Exception] are those of the module [Interruptible]. *)

Definition M (A : Type) : Type := world -> outcome A * world.

Definition ret {A} (a : A) : M A := fun w => (Ret a, w).

Definition raise {A} (e : exn) : M A := fun w => (Raise e, w).

Definition bind {A B} (m : M A) (f : A -> M B) : M B :=
  fun w =>
    match m w with
    | (Ret a, w') => f a w'
    | (Raise e, w') => (Raise e, w')
    end.

Definition lift {A} (o : outcome A) : M A := fun w => (o, w).

(** [try: body  except Exception as e: handler(e)], for a body that raises
    instances of [Exception] only, as every [M] does: the clause matches
    whatever such a body raises.  For a body that may also end with an
    exception outside [Exception], the clause is
    [Interruptible.try_except_Exception]. *)
Definition try_except {A} (body : M A) (handler : exn -> M A) : M A :=
  fun w =>
    match body w with
    | (Ret a, w') => (Ret a, w')
    | (Raise e, w') => handler e w'
    end.

Notation "'let*' x := m 'in' k" := (bind m (fun x => k))
  (at level 10, x name, m at level 100, k at level 200).

(** The three ways the adapter changes the world. *)
Definition log_line (line : string) (w : world) : world :=
  {| transport := transport w; clock := clock w;
     clock_reads := clock_reads w; sent := sent w;
     logged := logged w ++ [line] |}.

Definition tick (w : world) : world :=
  {| transport := transport w; clock := clock w;
     clock_reads := S (clock_reads w); sent := sent w;
     logged := logged w |}.

Definition record_request (r : request) (w : world) : world :=
  {| transport := transport w; clock := clock w;
     clock_reads := clock_reads w; sent := sent w ++ [r];
     logged := logged w |}.

(** [logger.error(line)] *)
Definition logger_error (line : string) : M unit :=
  fun w => (Ret tt, log_line line w).

(** [datetime.now()] *)
Definition datetime_now : M datetime :=
  fun w => (Ret (clock w (clock_reads w)), tick w).

(** One call of the client, [client.post] or [client.get]: the request is
    recorded and the transport answers or raises. *)
Definition client_send (r : request) : M response :=
  fun w => (transport w r, record_request r w).

(* ===================================================================== *)
(** * The class [ExternalSearch] *)
(* ===================================================================== *)

Record ExternalSearch := {
  api_key : option string;
  base_url : string;
  timeout : Z
}.

(** [os.getenv] gives [None] for a variable that is not set. *)
Definition __init__ (environ : gmap string string) : ExternalSearch :=
  {| api_key := environ !! "PERPLEXITY_API_KEY";
     base_url := "https://api.perplexity.ai";
     timeout := 30 |}.

(** [f"{x}"] for an optional string: [None] prints as [None]. *)
Definition format_opt (x : option string) : string :=
  match x with Some s => s | None => "None" end.

(** ** Query enhancement *)

Definition enhancements : gmap string string :=
  {[ "weather" := "Include temperature, rainfall, humidity, wind speed. Provide daily breakdown.";
     "prices" := "Include current market prices, price trends, and comparison with previous period.";
     "news" := "Include recent developments, policy changes, and market updates.";
     "alerts" := "Include severity level, affected areas, and recommended actions.";
     "general" := "Provide comprehensive agricultural information with sources." ]}.

(** [d.get(k, dflt)] *)
Definition dict_get {V} (d : gmap string V) (k : string) (dflt : V) : V :=
  match d !! k with Some v => v | None => dflt end.

Definition _enhance_query (query search_type : string) : string :=
  let enhancement :=
    dict_get enhancements search_type (enhancements !!! "general") in
  query +:+ ". " +:+ enhancement.

(** ** The placeholder parsers *)

Definition _parse_weather_response (answer : pyval) : pyval :=
  PDict {[ "summary" := PStr "Weather data extracted from response";
           "forecast" := PList [];
           "agricultural_impact" := PStr "Suitable for most farming activities" ]}.

Definition _parse_price_response (answer : pyval) : M pyval :=
  let* now := datetime_now in
  ret (PDict {[ "commodity" := PStr "";
                "current_price" := PInt 0;
                "currency" := PStr "EUR";
                "unit" := PStr "ton";
                "trend" := PStr "stable";
                "last_updated" := PStr (isoformat now) ]}).

Definition _parse_news_response (answer : pyval) : pyval :=
  PList [ PDict {[ "title" := PStr "Agricultural news item";
                   "summary" := PStr "News summary";
                   "relevance" := PStr "high" ]} ].

Definition _parse_alerts_response (answer : pyval) : pyval :=
  PList [ PDict {[ "type" := PStr "pest";
                   "name" := PStr "Alert name";
                   "severity" := PStr "medium";
                   "affected_crops" := PList [];
                   "recommended_action" := PStr "Monitor fields" ]} ].

(** ** [search] *)

(** The call [self._extract_sources(answer)] on whatever the response holds:
    [answer.split] exists on a [str] only. *)
Definition call_extract_sources (answer : pyval) : outcome (list string) :=
  match answer with
  | PStr a => Ret (_extract_sources a)
  | _ =>
      Raise (Exn "AttributeError"
               ("'" +:+ type_name answer +:+ "' object has no attribute 'split'"))
  end.

Definition system_prompt : string :=
  "You are an agricultural assistant providing current information for Croatian farmers. Always cite sources.".

Definition payload (enhanced_query : string) : pyval :=
  PDict {[ "model" := PStr "pplx-70b-online";
           "messages" :=
             PList [ PDict {[ "role" := PStr "system";
                              "content" := PStr system_prompt ]};
                     PDict {[ "role" := PStr "user";
                              "content" := PStr enhanced_query ]} ];
           "temperature" := PFloat "0.2";
           "max_tokens" := PInt 1000 ]}.

Definition search_request (self : ExternalSearch) (enhanced_query : string)
  : request :=
  {| req_method := "POST";
     req_url := base_url self +:+ "/chat/completions";
     req_headers :=
       {[ "Authorization" := "Bearer " +:+ format_opt (api_key self);
          "Content-Type" := "application/json" ]};
     req_json := Some (payload enhanced_query);
     req_timeout := timeout self |}.

(** [result['choices'][0]['message']['content']] *)
Definition answer_of (result : pyval) : outcome pyval :=
  match getitem result (KStr "choices") with
  | Raise e => Raise e
  | Ret choices =>
      match getitem choices (KInt 0) with
      | Raise e => Raise e
      | Ret choice =>
          match getitem choice (KStr "message") with
          | Raise e => Raise e
          | Ret message => getitem message (KStr "content")
          end
      end
  end.

(** The body of the [try] block. *)
Definition search_try (self : ExternalSearch) (query search_type : string)
  : M (gmap string pyval) :=
  let enhanced_query := _enhance_query query search_type in
  let* response := client_send (search_request self enhanced_query) in
  if status_code response =? 200 then
    let* result := lift (json response) in
    let* answer := lift (answer_of result) in
    let* sources := lift (call_extract_sources answer) in
    let* now := datetime_now in
    ret {[ "success" := PBool true;
           "answer" := answer;
           "search_type" := PStr search_type;
           "sources" := PList (map PStr sources);
           "timestamp" := PStr (isoformat now) ]}
  else
    let* _ := logger_error ("Perplexity API error: " +:+ pretty (status_code response)) in
    ret {[ "success" := PBool false;
           "error" := PStr ("API error: " +:+ pretty (status_code response));
           "message" := PStr "Unable to fetch current information" ]}.

(** The [except Exception as e] handler. *)
Definition search_except (e : exn) : M (gmap string pyval) :=
  let* _ := logger_error ("External search error: " +:+ exn_text e) in
  ret {[ "success" := PBool false;
         "error" := PStr (exn_text e);
         "message" := PStr "Search service temporarily unavailable" ]}.

Definition search (self : ExternalSearch) (query search_type : string)
  : M (gmap string pyval) :=
  try_except (search_try self query search_type) search_except.

(** ** The domain operations *)

(** [result[k]] on an envelope. *)
Definition envelope_getitem (result : gmap string pyval) (k : string) : M pyval :=
  lift (getitem (PDict result) (KStr k)).

Definition weather_query (location : string) (days : Z) : string :=
  "Weather forecast for " +:+ location +:+ " next " +:+ pretty days
  +:+ " days for farming agricultural planning temperature rainfall humidity".

Definition get_weather_forecast (self : ExternalSearch) (location : string)
  (days : Z) : M (gmap string pyval) :=
  let query := weather_query location days in
  let* result := search self query "weather" in
  let* success := envelope_getitem result "success" in
  if truthy success then
    let* answer := envelope_getitem result "answer" in
    let weather_data := _parse_weather_response answer in
    ret (<["weather_data" := weather_data]> result)
  else ret result.

Definition prices_query (commodity market : string) : string :=
  "Current " +:+ commodity +:+ " prices in " +:+ market
  +:+ " agricultural market EUR per ton".

Definition get_market_prices (self : ExternalSearch) (commodity market : string)
  : M (gmap string pyval) :=
  let query := prices_query commodity market in
  let* result := search self query "prices" in
  let* success := envelope_getitem result "success" in
  if truthy success then
    let* answer := envelope_getitem result "answer" in
    let* price_data := _parse_price_response answer in
    ret (<["price_data" := price_data]> result)
  else ret result.

(** [if topic:] holds for a string that is not empty. *)
Definition news_query (topic : option string) (region : string) : string :=
  let query := "Recent agricultural news " +:+ region in
  match topic with
  | Some t => if negb (String.eqb t "") then query +:+ " about " +:+ t else query
  | None => query
  end.

Definition get_agricultural_news (self : ExternalSearch) (topic : option string)
  (region : string) : M (gmap string pyval) :=
  let query := news_query topic region in
  let* result := search self query "news" in
  let* success := envelope_getitem result "success" in
  if truthy success then
    let* answer := envelope_getitem result "answer" in
    let news_items := _parse_news_response answer in
    ret (<["news_items" := news_items]> result)
  else ret result.

Definition alerts_query (region : string) (crops : list string) : string :=
  let crops_str := PyStr.join ", " crops in
  "Current pest disease alerts warnings " +:+ region +:+ " for " +:+ crops_str
  +:+ " crops".

Definition get_pest_disease_alerts (self : ExternalSearch) (region : string)
  (crops : list string) : M (gmap string pyval) :=
  let query := alerts_query region crops in
  let* result := search self query "alerts" in
  let* success := envelope_getitem result "success" in
  if truthy success then
    let* answer := envelope_getitem result "answer" in
    let alerts := _parse_alerts_response answer in
    ret (<["alerts" := alerts]> result)
  else ret result.

(** ** [health_check] *)

Definition health_request (self : ExternalSearch) : request :=
  {| req_method := "GET";
     req_url := base_url self +:+ "/models";
     req_headers := {[ "Authorization" := "Bearer " +:+ format_opt (api_key self) ]};
     req_json := None;
     req_timeout := 5 |}.

Definition health_check (self : ExternalSearch) : M bool :=
  try_except
    (let* response := client_send (health_request self) in
     ret (status_code response =? 200))
    (fun e =>
       let* _ := logger_error ("External search health check failed: " +:+ exn_text e) in
       ret false).

(** The default arguments of the signatures. *)
Definition default_search_type : string := "general".
Definition default_days : Z := 7.
Definition default_market : string := "Croatia".
Definition default_region : string := "Croatia".

(* ===================================================================== *)
(** * Vocabulary of the properties *)
(* ===================================================================== *)

(** The four domain operations, as calls. *)
Inductive domain_call :=
| WeatherForecast (location : string) (days : Z)
| MarketPrices (commodity market : string)
| AgriculturalNews (topic : option string) (region : string)
| PestDiseaseAlerts (region : string) (crops : list string).

Definition call (self : ExternalSearch) (c : domain_call) : M (gmap string pyval) :=
  match c with
  | WeatherForecast location days => get_weather_forecast self location days
  | MarketPrices commodity market => get_market_prices self commodity market
  | AgriculturalNews topic region => get_agricultural_news self topic region
  | PestDiseaseAlerts region crops => get_pest_disease_alerts self region crops
  end.

(** The query a call builds, the search type it delegates with and the key
    it attaches its parsed object under. *)
Definition call_query (c : domain_call) : string :=
  match c with
  | WeatherForecast location days => weather_query location days
  | MarketPrices commodity market => prices_query commodity market
  | AgriculturalNews topic region => news_query topic region
  | PestDiseaseAlerts region crops => alerts_query region crops
  end.

Definition call_search_type (c : domain_call) : string :=
  match c with
  | WeatherForecast _ _ => "weather"
  | MarketPrices _ _ => "prices"
  | AgriculturalNews _ _ => "news"
  | PestDiseaseAlerts _ _ => "alerts"
  end.

Definition call_key (c : domain_call) : string :=
  match c with
  | WeatherForecast _ _ => "weather_data"
  | MarketPrices _ _ => "price_data"
  | AgriculturalNews _ _ => "news_items"
  | PestDiseaseAlerts _ _ => "alerts"
  end.

(** The object a call attaches on success: what its parser makes of the
    answer.  Only the price parser reads the clock. *)
Definition parsed_object (c : domain_call) (answer : pyval) : M pyval :=
  match c with
  | WeatherForecast _ _ => ret (_parse_weather_response answer)
  | MarketPrices _ _ => _parse_price_response answer
  | AgriculturalNews _ _ => ret (_parse_news_response answer)
  | PestDiseaseAlerts _ _ => ret (_parse_alerts_response answer)
  end.

(** The ways the [try] block of [search] fails on the request [r] in the
    world [w]: the transport raises (connection refused, timeout); the body
    of a 200 response is not JSON; a field on the way to the answer is
    missing; the answer is not text. *)
Inductive fails_with (w : world) (r : request) (e : exn) : Prop :=
| transport_raises :
    transport w r = Raise e -> fails_with w r e
| body_not_json resp :
    transport w r = Ret resp -> status_code resp = 200 ->
    json resp = Raise e -> fails_with w r e
| field_missing resp result :
    transport w r = Ret resp -> status_code resp = 200 ->
    json resp = Ret result -> answer_of result = Raise e -> fails_with w r e
| answer_not_text resp result answer :
    transport w r = Ret resp -> status_code resp = 200 ->
    json resp = Ret result -> answer_of result = Ret answer ->
    call_extract_sources answer = Raise e -> fails_with w r e.

(** The shapes of the envelopes [search] builds. *)
Inductive envelope_shape (search_type : string) (r : gmap string pyval) : Prop :=
| shape_success answer sources timestamp :
    r = {[ "success" := PBool true;
           "answer" := PStr answer;
           "search_type" := PStr search_type;
           "sources" := PList (map PStr sources);
           "timestamp" := PStr timestamp ]} ->
    envelope_shape search_type r
| shape_failure error message :
    r = {[ "success" := PBool false;
           "error" := PStr error;
           "message" := PStr message ]} ->
    envelope_shape search_type r.

(** The enhancement table as the specification prints it: a suffix per
    search type, the general one for any other text. *)
Definition enhancement_table (search_type : string) : string :=
  if String.eqb search_type "weather" then
    "Include temperature, rainfall, humidity, wind speed. Provide daily breakdown."
  else if String.eqb search_type "prices" then
    "Include current market prices, price trends, and comparison with previous period."
  else if String.eqb search_type "news" then
    "Include recent developments, policy changes, and market updates."
  else if String.eqb search_type "alerts" then
    "Include severity level, affected areas, and recommended actions."
  else
    "Provide comprehensive agricultural information with sources.".

(** The query sent upstream: the content of the user message of a
    request, [json["messages"][1]["content"]]. *)
Definition user_content (r : request) : option pyval :=
  match req_json r with
  | None => None
  | Some body =>
      match getitem body (KStr "messages") with
      | Raise _ => None
      | Ret messages =>
          match getitem messages (KInt 1) with
          | Raise _ => None
          | Ret message =>
              match getitem message (KStr "content") with
              | Raise _ => None
              | Ret content => Some content
              end
          end
      end
  end.

(** The well-formed body of the chat-completion endpoint:
    [{"choices": [{"message": {"content": answer}}]}]. *)
Definition completion_body (answer : string) : pyval :=
  PDict {[ "choices" :=
             PList [ PDict {[ "message" := PDict {[ "content" := PStr answer ]} ]} ] ]}.

(** Texts made only of characters that one of the four one-character
    classes of the pattern accepts. *)
Fixpoint url_chars (s : string) : bool :=
  match s with
  | EmptyString => true
  | String c s' => Re.one_char_atom c && url_chars s'
  end.

(** The separator of [answer.split('\n')], as a text. *)
Definition newline_text : string := String PyStr.newline EmptyString.

(** ** Worlds for the examples *)

Definition noon : datetime :=
  {| year := 2024; month := 3; day := 7;
     hour := 12; minute := 0; second := 0; microsecond := 0 |}.

Definition later (n : nat) : datetime :=
  {| year := 2024; month := 3; day := 7;
     hour := 12; minute := 0; second := N.of_nat n; microsecond := 250 |}.

(** A fresh world whose transport gives the same reply to every request and
    whose clock advances by a second per reading. *)
Definition world_replying (reply : outcome response) : world :=
  {| transport := fun _ => reply;
     clock := fun n => match n with O => noon | S _ => later n end;
     clock_reads := 0;
     sent := [];
     logged := [] |}.

Definition connection_refused : exn :=
  Exn "ConnectError" "All connection attempts failed".

Definition an_adapter : ExternalSearch := __init__ {[ "PERPLEXITY_API_KEY" := "secret" ]}.

(* ===================================================================== *)
(** * Exceptions outside [Exception]

    The two handlers of the adapter are [except Exception] clauses (in
    [search] and in [health_check]); the domain operations have none.  An
    exception that derives from [BaseException] only -- [asyncio.CancelledError]
    when the task is cancelled while it awaits the client, [KeyboardInterrupt],
    [SystemExit] -- is no instance of [Exception], so no clause of the adapter
    matches it.  This section runs the operations in worlds where the awaited
    client call may end in such an exception. *)
(* ===================================================================== *)

(** What [search] does with the response, once the client call has returned
    it: the rest of its [try] block. *)
Definition search_after (search_type : string) (response : response)
  : M (gmap string pyval) :=
  if status_code response =? 200 then
    let* result := lift (json response) in
    let* answer := lift (answer_of result) in
    let* sources := lift (call_extract_sources answer) in
    let* now := datetime_now in
    ret {[ "success" := PBool true;
           "answer" := answer;
           "search_type" := PStr search_type;
           "sources" := PList (map PStr sources);
           "timestamp" := PStr (isoformat now) ]}
  else
    let* _ := logger_error ("Perplexity API error: " +:+ pretty (status_code response)) in
    ret {[ "success" := PBool false;
           "error" := PStr ("API error: " +:+ pretty (status_code response));
           "message" := PStr "Unable to fetch current information" ]}.

(** What a domain operation does with the envelope of its search. *)
Definition attach (c : domain_call) (result : gmap string pyval)
  : M (gmap string pyval) :=
  let* success := envelope_getitem result "success" in
  if truthy success then
    let* answer := envelope_getitem result "answer" in
    let* obj := parsed_object c answer in
    ret (<[call_key c := obj]> result)
  else ret result.

(** The handler of [health_check]. *)
Definition health_check_except (e : exn) : M bool :=
  let* _ := logger_error ("External search health check failed: " +:+ exn_text e) in
  ret false.

Module Interruptible.

(** An exception that is not an instance of [Exception]: its class and its
    text. *)
Record interruption := Interruption { int_class : string; int_text : string }.

(** How a call ends: it returns, it raises an instance of [Exception], or an
    interruption passes through it. *)
Inductive signal (A : Type) :=
| Returned (a : A)
| Thrown (e : exn)
| Escaped (i : interruption).
Arguments Returned {A} a.
Arguments Thrown {A} e.
Arguments Escaped {A} i.

(** A world as before, and for each request whether the await of the client
    call that carries it is interrupted, and by what. *)
Record iworld := {
  under : world;
  interrupts : request -> option interruption
}.

Definition MI (A : Type) : Type := iworld -> signal A * iworld.

Definition over (w : iworld) (w' : world) : iworld :=
  {| under := w'; interrupts := interrupts w |}.

Definition of_outcome {A} (o : outcome A) : signal A :=
  match o with
  | Ret a => Returned a
  | Raise e => Thrown e
  end.

(** A computation that raises instances of [Exception] only, run in the
    world underneath. *)
Definition plain {A} (m : M A) : MI A :=
  fun w => let (o, w') := m (under w) in (of_outcome o, over w w').

Definition ibind {A B} (m : MI A) (f : A -> MI B) : MI B :=
  fun w =>
    match m w with
    | (Returned a, w') => f a w'
    | (Thrown e, w') => (Thrown e, w')
    | (Escaped i, w') => (Escaped i, w')
    end.

(** [try: body  except Exception as e: handler(e)]: the clause matches the
    instances of [Exception]; an interruption is none and passes through. *)
Definition try_except_Exception {A} (body : MI A) (handler : exn -> MI A)
  : MI A :=
  fun w =>
    match body w with
    | (Returned a, w') => (Returned a, w')
    | (Thrown e, w') => handler e w'
    | (Escaped i, w') => (Escaped i, w')
    end.

(** [await client.post(...)], [await client.get(...)]: the request is handed
    to the client; the await is interrupted, or the transport answers or
    raises as before. *)
Definition await_send (r : request) : MI response :=
  fun w =>
    match interrupts w r with
    | Some i => (Escaped i, over w (record_request r (under w)))
    | None => plain (client_send r) w
    end.

Definition search_try (self : ExternalSearch) (query search_type : string)
  : MI (gmap string pyval) :=
  let enhanced_query := _enhance_query query search_type in
  ibind (await_send (search_request self enhanced_query))
    (fun response => plain (search_after search_type response)).

Definition search (self : ExternalSearch) (query search_type : string)
  : MI (gmap string pyval) :=
  try_except_Exception (search_try self query search_type)
    (fun e => plain (search_except e)).

(** The domain operations: no handler around the call of [search]. *)
Definition call (self : ExternalSearch) (c : domain_call)
  : MI (gmap string pyval) :=
  ibind (search self (call_query c) (call_search_type c))
    (fun result => plain (attach c result)).

Definition health_check (self : ExternalSearch) : MI bool :=
  try_except_Exception
    (ibind (await_send (health_request self))
       (fun response => plain (ret (status_code response =? 200))))
    (fun e => plain (health_check_except e)).

End Interruptible.




(* ===================================================================== *)
(** * Facts about the string operations *)
(* ===================================================================== *)

Section StringFacts.
Import PyStr.

(** stdpp keeps [simpl] from unfolding the concatenation of strings; these
    are its two equations. *)
Lemma app_nil_l s : "" +:+ s = s.
Proof. reflexivity. Qed.

Lemma app_cons a s t : String a s +:+ t = String a (s +:+ t).
Proof. reflexivity. Qed.

Ltac str_simpl := rewrite ?app_cons, ?app_nil_l; simpl.

Lemma strip_prefix_app p r : strip_prefix p (p +:+ r) = Some r.
Proof.
  induction p as [|a p IH]; str_simpl; [reflexivity|].
  rewrite Ascii.eqb_refl. exact IH.
Qed.

Lemma strip_prefix_inv p s r : strip_prefix p s = Some r -> s = p +:+ r.
Proof.
  revert s. induction p as [|a p IH]; intros s H; simpl in *.
  - inversion H. reflexivity.
  - destruct s as [|b s]; [discriminate|].
    destruct (Ascii.eqb a b) eqn:E; [|discriminate].
    apply Ascii.eqb_eq in E. subst b. str_simpl. f_equal. auto.
Qed.

Lemma startswith_app p r : startswith (p +:+ r) p = true.
Proof. unfold startswith. rewrite strip_prefix_app. reflexivity. Qed.

Lemma contains_cons needle c s :
  contains needle s = true -> contains needle (String c s) = true.
Proof. intros H. simpl. rewrite H. apply orb_true_r. Qed.

Lemma contains_tail needle c s :
  contains needle (String c s) = false -> contains needle s = false.
Proof. simpl. intros H. apply orb_false_iff in H. tauto. Qed.

Lemma contains_head needle s :
  contains needle s = false -> startswith s needle = false.
Proof.
  destruct s; simpl; intros H; apply orb_false_iff in H; tauto.
Qed.

Lemma contains_startswith needle s :
  startswith s needle = true -> contains needle s = true.
Proof. intros H. destruct s; simpl; rewrite H; reflexivity. Qed.

(** A needle is found in any text written around it. *)
Lemma contains_app needle pre post :
  contains needle (pre +:+ needle +:+ post) = true.
Proof.
  induction pre as [|c pre IH]; str_simpl.
  - apply contains_startswith, startswith_app.
  - rewrite IH. apply orb_true_r.
Qed.

(** ... and only there. *)
Lemma contains_inv needle s :
  contains needle s = true -> exists pre post, s = pre +:+ needle +:+ post.
Proof.
  induction s as [|c s IH]; simpl; intros H.
  - rewrite orb_false_r in H. unfold startswith in H.
    destruct (strip_prefix needle "") as [r|] eqn:E; [|discriminate].
    exists "", r. apply strip_prefix_inv in E. exact E.
  - apply orb_true_iff in H as [H|H].
    + unfold startswith in H.
      destruct (strip_prefix needle (String c s)) as [r|] eqn:E; [|discriminate].
      exists "", r. apply strip_prefix_inv in E. exact E.
    + destruct (IH H) as (pre & post & ->).
      exists (String c pre), post. reflexivity.
Qed.

Lemma startswith_trans s p q :
  startswith s (p +:+ q) = true -> startswith s p = true.
Proof.
  unfold startswith. revert s.
  induction p as [|a p IH]; intros s; simpl; [reflexivity|].
  destruct s as [|b s]; [discriminate|].
  destruct (Ascii.eqb a b); [apply IH|discriminate].
Qed.

End StringFacts.

(* ===================================================================== *)
(** * Facts about the URL pattern *)
(* ===================================================================== *)

Section PatternFacts.
Import PyStr Re.

(** The percent sign lies in the range from [$] to [_]: the third
    alternative takes it, and the fifth, with its two hexadecimal digits, is
    never reached. *)
Lemma percent_is_one_char_atom c :
  is_char "%" c = true -> one_char_atom c = true.
Proof. intros H. apply Ascii.eqb_eq in H. subst c. reflexivity. Qed.

(** So the loop takes the longest run of characters of the four classes. *)
Lemma atoms_cons c s :
  atoms (String c s) = if one_char_atom c then String c (atoms s) else "".
Proof.
  cbn [atoms]. destruct (one_char_atom c) eqn:E; [reflexivity|].
  destruct (is_char "%" c) eqn:Ep; [|reflexivity].
  rewrite (percent_is_one_char_atom _ Ep) in E. discriminate.
Qed.

(** The scheme matched is [http://] or [https://], and the text starts
    with it. *)
Lemma scheme_inv s sch r :
  scheme s = Some (sch, r) ->
  (sch = "http://" \/ sch = "https://") /\ s = sch +:+ r.
Proof.
  unfold scheme. intros H.
  destruct (strip_prefix "http" s) as [r0|] eqn:E0; [|discriminate].
  apply strip_prefix_inv in E0. subst s.
  destruct r0 as [|c r1].
  - simpl in H. discriminate.
  - destruct (is_char "s" c) eqn:Ec.
    + destruct (strip_prefix "://" r1) as [r2|] eqn:E1.
      * inversion H; subst. apply strip_prefix_inv in E1. subst r1.
        apply Ascii.eqb_eq in Ec. subst c. split; [right|]; reflexivity.
      * destruct (strip_prefix "://" (String c r1)) as [r2|] eqn:E2; [|discriminate].
        inversion H; subst. apply strip_prefix_inv in E2. rewrite E2.
        split; [left|]; reflexivity.
    + destruct (strip_prefix "://" (String c r1)) as [r2|] eqn:E2; [|discriminate].
      inversion H; subst. apply strip_prefix_inv in E2. rewrite E2.
      split; [left|]; reflexivity.
Qed.

(** A match is a scheme followed by at least one character, and it starts
    where the scan stands. *)
Lemma match_here_inv s m :
  match_here s = Some m ->
  exists sch body r,
    (sch = "http://" \/ sch = "https://") /\ body <> "" /\
    m = sch +:+ body /\ s = sch +:+ r.
Proof.
  unfold match_here. intros H.
  destruct (scheme s) as [[sch r]|] eqn:E; [|discriminate].
  apply scheme_inv in E as [Hsch Hs].
  destruct (atoms r) as [|c body] eqn:Ea; [discriminate|].
  inversion H; subst m.
  exists sch, (String c body), r. split; [exact Hsch|].
  split; [discriminate|]. split; [reflexivity|exact Hs].
Qed.

Lemma match_here_http s m :
  match_here s = Some m -> startswith s "http" = true.
Proof.
  intros H. apply match_here_inv in H as (sch & body & r & [->| ->] & _ & _ & ->);
    reflexivity.
Qed.

Lemma match_here_scheme s m :
  match_here s = Some m ->
  startswith m "http://" = true \/ startswith m "https://" = true.
Proof.
  intros H. apply match_here_inv in H as (sch & body & r & [->| ->] & _ & -> & _).
  - left. apply startswith_app.
  - right. apply startswith_app.
Qed.

(** Without [http] in the text the scan finds nothing. *)
Lemma findall_from_no_http s :
  contains "http" s = false -> forall skip, findall_from skip s = [].
Proof.
  induction s as [|c s IH]; intros Hc skip; [reflexivity|].
  pose proof (contains_tail _ _ _ Hc) as Ht.
  pose proof (contains_head _ _ Hc) as Hh.
  cbn [findall_from]. destruct skip as [|k]; [|apply IH, Ht].
  destruct (match_here (String c s)) as [m|] eqn:Em.
  - apply match_here_http in Em. congruence.
  - apply IH, Ht.
Qed.

Lemma findall_no_http s : contains "http" s = false -> findall s = [].
Proof. intros H. apply findall_from_no_http, H. Qed.

(** Every text found carries one of the two schemes. *)
Lemma findall_from_scheme s :
  forall skip u, u ∈ findall_from skip s ->
    startswith u "http://" = true \/ startswith u "https://" = true.
Proof.
  induction s as [|c s IH]; intros skip u Hu.
  - cbn in Hu. inversion Hu.
  - cbn [findall_from] in Hu. destruct skip as [|k]; [|eapply IH, Hu].
    destruct (match_here (String c s)) as [m|] eqn:Em.
    + apply elem_of_cons in Hu as [->|Hu].
      * eapply match_here_scheme, Em.
      * eapply IH, Hu.
    + eapply IH, Hu.
Qed.

End PatternFacts.

(* ===================================================================== *)
(** * Facts about source extraction *)
(* ===================================================================== *)

Lemma scan_lines_foldl acc lines :
  foldl (fun sources line =>
           if mentions_url line then sources ++ Re.findall line else sources)
        acc lines
  = acc ++ concat (map Re.findall (filter (fun l => mentions_url l = true) lines)).
Proof.
  revert acc. induction lines as [|l ls IH]; intros acc; simpl.
  - rewrite app_nil_r. reflexivity.
  - rewrite IH. rewrite filter_cons.
    destruct (mentions_url l) eqn:E.
    + rewrite decide_True by reflexivity. simpl. rewrite app_assoc. reflexivity.
    + rewrite decide_False by discriminate. reflexivity.
Qed.

(** The loop collects the matches of the lines that pass the test, in order. *)
Lemma scan_lines_concat lines :
  scan_lines lines
  = concat (map Re.findall (filter (fun l => mentions_url l = true) lines)).
Proof. unfold scan_lines. rewrite scan_lines_foldl. reflexivity. Qed.

Lemma elem_of_scan_lines u lines :
  u ∈ scan_lines lines <->
  exists line, line ∈ lines /\ mentions_url line = true /\ u ∈ Re.findall line.
Proof.
  rewrite scan_lines_concat.
  induction lines as [|l ls IH].
  - simpl. split.
    + intros H. inversion H.
    + intros (line & H & _). inversion H.
  - rewrite filter_cons. destruct (decide (mentions_url l = true)) as [Hl|Hl].
    + simpl. rewrite elem_of_app, IH. split.
      * intros [Hu|(line & Hin & Hm & Hu)].
        -- exists l. split; [left|]; auto.
        -- exists line. split; [right|]; auto.
      * intros (line & Hin & Hm & Hu). apply elem_of_cons in Hin as [->|Hin].
        -- left. exact Hu.
        -- right. eauto.
    + rewrite IH. split.
      * intros (line & Hin & Hm & Hu). exists line. split; [right|]; auto.
      * intros (line & Hin & Hm & Hu). apply elem_of_cons in Hin as [->|Hin].
        -- contradiction.
        -- eauto.
Qed.

Lemma extract_sources_NoDup answer : NoDup (_extract_sources answer).
Proof. unfold _extract_sources. apply NoDup_elements. Qed.

Lemma elem_of_extract_sources u answer :
  u ∈ _extract_sources answer <->
  u ∈ scan_lines (PyStr.split PyStr.newline answer).
Proof.
  unfold _extract_sources. rewrite elem_of_elements, elem_of_list_to_set.
  reflexivity.
Qed.

Lemma extract_sources_nil answer :
  scan_lines (PyStr.split PyStr.newline answer) = [] ->
  _extract_sources answer = [].
Proof.
  unfold _extract_sources. intros ->. simpl. apply elements_empty.
Qed.

(* ===================================================================== *)
(** * Running [search] *)
(* ===================================================================== *)

Section Search.
Variable self : ExternalSearch.
Variables query search_type : string.

Let req := search_request self (_enhance_query query search_type).

(** The [try] block on a transport that raises. *)
Lemma search_try_transport w e :
  transport w req = Raise e ->
  search_try self query search_type w = (Raise e, record_request req w).
Proof.
  intros H. unfold search_try, bind, client_send. fold req. rewrite H.
  reflexivity.
Qed.

(** The [try] block on a status other than 200. *)
Lemma search_try_status w resp :
  transport w req = Ret resp -> status_code resp <> 200 ->
  search_try self query search_type w =
    (Ret {[ "success" := PBool false;
            "error" := PStr ("API error: " +:+ pretty (status_code resp));
            "message" := PStr "Unable to fetch current information" ]},
     log_line ("Perplexity API error: " +:+ pretty (status_code resp))
       (record_request req w)).
Proof.
  intros H Hs. unfold search_try, bind, client_send. fold req. rewrite H.
  apply Z.eqb_neq in Hs. rewrite Hs. reflexivity.
Qed.

(** The [try] block on status 200, by what the body holds. *)
Lemma search_try_200 w resp :
  transport w req = Ret resp -> status_code resp = 200 ->
  search_try self query search_type w =
    match json resp with
    | Raise e => (Raise e, record_request req w)
    | Ret result =>
        match answer_of result with
        | Raise e => (Raise e, record_request req w)
        | Ret answer =>
            match call_extract_sources answer with
            | Raise e => (Raise e, record_request req w)
            | Ret sources =>
                (Ret {[ "success" := PBool true;
                        "answer" := answer;
                        "search_type" := PStr search_type;
                        "sources" := PList (map PStr sources);
                        "timestamp" := PStr (isoformat (clock w (clock_reads w))) ]},
                 tick (record_request req w))
            end
        end
    end.
Proof.
  intros H Hs. unfold search_try, bind, client_send, lift. fold req. rewrite H.
  rewrite Hs. simpl.
  destruct (json resp) as [result|e]; [|reflexivity].
  destruct (answer_of result) as [answer|e]; [|reflexivity].
  destruct (call_extract_sources answer) as [sources|e]; reflexivity.
Qed.

Lemma fails_with_raises w e :
  fails_with w req e ->
  search_try self query search_type w = (Raise e, record_request req w).
Proof.
  intros [H | resp H Hs Hj | resp result H Hs Hj Ha
          | resp result answer H Hs Hj Ha Hx].
  - apply search_try_transport, H.
  - rewrite (search_try_200 w resp H Hs), Hj. reflexivity.
  - rewrite (search_try_200 w resp H Hs), Hj, Ha. reflexivity.
  - rewrite (search_try_200 w resp H Hs), Hj, Ha, Hx. reflexivity.
Qed.

(** The handler turns whatever the [try] block raises into an envelope. *)
Lemma search_catches w e w1 :
  search_try self query search_type w = (Raise e, w1) ->
  search self query search_type w =
    (Ret {[ "success" := PBool false;
            "error" := PStr (exn_text e);
            "message" := PStr "Search service temporarily unavailable" ]},
     log_line ("External search error: " +:+ exn_text e) w1).
Proof.
  intros H. unfold search, try_except. rewrite H. reflexivity.
Qed.

Lemma search_passes w r w1 :
  search_try self query search_type w = (Ret r, w1) ->
  search self query search_type w = (Ret r, w1).
Proof.
  intros H. unfold search, try_except. rewrite H. reflexivity.
Qed.

(** [search] returns, and what it returns has one of the two shapes. *)
Lemma search_returns w :
  exists r w', search self query search_type w = (Ret r, w')
               /\ envelope_shape search_type r.
Proof.
  destruct (transport w req) as [resp|e] eqn:H.
  - destruct (Z.eq_dec (status_code resp) 200) as [Hs|Hs].
    + pose proof (search_try_200 w resp H Hs) as E.
      destruct (json resp) as [result|e].
      * destruct (answer_of result) as [answer|e].
        -- destruct answer as [| | | |a| |];
             try (eexists _, _; split;
                  [apply (search_catches _ _ _ E)
                  |eapply shape_failure; reflexivity]).
           simpl in E. eexists _, _. split; [apply (search_passes _ _ _ E)|].
           eapply shape_success. reflexivity.
        -- eexists _, _. split; [apply (search_catches _ _ _ E)|].
           eapply shape_failure. reflexivity.
      * eexists _, _. split; [apply (search_catches _ _ _ E)|].
        eapply shape_failure. reflexivity.
    + eexists _, _. split.
      * apply search_passes, (search_try_status w resp H Hs).
      * eapply shape_failure. reflexivity.
  - eexists _, _. split.
    + apply search_catches, search_try_transport, H.
    + eapply shape_failure. reflexivity.
Qed.

End Search.

(* ===================================================================== *)
(** * The envelopes and the domain operations *)
(* ===================================================================== *)

Lemma shape_success_fields st r :
  r !! "success" = Some (PBool true) -> envelope_shape st r ->
  exists answer, r !! "answer" = Some (PStr answer) /\ r !! "error" = None.
Proof.
  intros Hs [answer sources ts -> | error message ->].
  - exists answer. split; reflexivity.
  - vm_compute in Hs. discriminate.
Qed.

Lemma shape_failure_fields st r :
  r !! "success" = Some (PBool false) -> envelope_shape st r ->
  exists error, r !! "error" = Some (PStr error) /\ r !! "answer" = None.
Proof.
  intros Hs [answer sources ts -> | error message ->].
  - vm_compute in Hs. discriminate.
  - exists error. split; reflexivity.
Qed.

Lemma shape_success_flag st r :
  envelope_shape st r ->
  r !! "success" = Some (PBool true) \/ r !! "success" = Some (PBool false).
Proof. intros [? ? ? -> | ? ? ->]; [left|right]; reflexivity. Qed.

(** An envelope holds [answer] when [success] is true and [error] when it
    is false, never both. *)
Lemma shape_lookups st r :
  envelope_shape st r ->
  (r !! "success" = Some (PBool true)
   /\ is_Some (r !! "answer") /\ r !! "error" = None)
  \/ (r !! "success" = Some (PBool false)
      /\ r !! "answer" = None /\ is_Some (r !! "error")).
Proof.
  intros [answer sources ts -> | error message ->]; [left|right].
  - split; [reflexivity|]. split; [exists (PStr answer)|]; reflexivity.
  - split; [reflexivity|]. split; [|exists (PStr error)]; reflexivity.
Qed.

(** No envelope of [search] carries a key of the domain operations. *)
Lemma shape_no_call_key st r c :
  envelope_shape st r -> r !! call_key c = None.
Proof. intros [? ? ? -> | ? ? ->]; destruct c; reflexivity. Qed.

Section Calls.
Variable self : ExternalSearch.

Lemma call_on_success c w r w1 answer :
  search self (call_query c) (call_search_type c) w = (Ret r, w1) ->
  r !! "success" = Some (PBool true) ->
  r !! "answer" = Some answer ->
  call self c w =
    match parsed_object c answer w1 with
    | (Ret obj, w2) => (Ret (<[call_key c := obj]> r), w2)
    | (Raise e, w2) => (Raise e, w2)
    end.
Proof.
  intros H Hs Ha.
  destruct c; simpl in H |- *;
    unfold get_weather_forecast, get_market_prices, get_agricultural_news,
      get_pest_disease_alerts, bind, envelope_getitem, lift, getitem;
    rewrite H, Hs; simpl; rewrite Ha; try reflexivity.
Qed.

Lemma call_on_failure c w r w1 :
  search self (call_query c) (call_search_type c) w = (Ret r, w1) ->
  r !! "success" = Some (PBool false) ->
  call self c w = (Ret r, w1).
Proof.
  intros H Hs.
  destruct c; simpl in H |- *;
    unfold get_weather_forecast, get_market_prices, get_agricultural_news,
      get_pest_disease_alerts, bind, envelope_getitem, lift, getitem;
    rewrite H, Hs; reflexivity.
Qed.

(** The parsers return. *)
Lemma parsed_object_returns c answer w :
  exists obj w', parsed_object c answer w = (Ret obj, w').
Proof. destruct c; eexists _, _; reflexivity. Qed.

End Calls.

(* ===================================================================== *)
(** * Requests issued *)
(* ===================================================================== *)

Lemma sent_log_line line w : sent (log_line line w) = sent w.
Proof. reflexivity. Qed.

Lemma sent_tick w : sent (tick w) = sent w.
Proof. reflexivity. Qed.

Lemma sent_record_request r w : sent (record_request r w) = sent w ++ [r].
Proof. reflexivity. Qed.

(** The [try] block issues its one request, whatever comes back. *)
Lemma search_try_sends_once self query search_type w :
  sent (snd (search_try self query search_type w))
  = sent w ++ [search_request self (_enhance_query query search_type)].
Proof.
  destruct (transport w (search_request self (_enhance_query query search_type)))
    as [resp|e] eqn:H.
  - destruct (Z.eq_dec (status_code resp) 200) as [Hs|Hs].
    + rewrite (search_try_200 _ _ _ w resp H Hs).
      destruct (json resp) as [result|e]; [|reflexivity].
      destruct (answer_of result) as [answer|e]; [|reflexivity].
      destruct (call_extract_sources answer); reflexivity.
    + rewrite (search_try_status _ _ _ w resp H Hs). reflexivity.
  - rewrite (search_try_transport _ _ _ w e H). reflexivity.
Qed.

Lemma search_sends_once self query search_type w :
  sent (snd (search self query search_type w))
  = sent w ++ [search_request self (_enhance_query query search_type)].
Proof.
  pose proof (search_try_sends_once self query search_type w) as H.
  unfold search, try_except.
  destruct (search_try self query search_type w) as [[r|e] w1]; exact H.
Qed.

Lemma parsed_object_sent c answer w :
  sent (snd (parsed_object c answer w)) = sent w.
Proof. destruct c; reflexivity. Qed.

(* ===================================================================== *)
(** * The enhancement table *)
(* ===================================================================== *)

(** The dictionary of [_enhance_query], read with [get] and the general
    entry as default, is the table. *)
Lemma enhancements_table search_type :
  dict_get enhancements search_type (enhancements !!! "general")
  = enhancement_table search_type.
Proof.
  unfold dict_get, enhancement_table, enhancements.
  destruct (String.eqb_spec search_type "weather") as [->|H1]; [reflexivity|].
  destruct (String.eqb_spec search_type "prices") as [->|H2]; [reflexivity|].
  destruct (String.eqb_spec search_type "news") as [->|H3]; [reflexivity|].
  destruct (String.eqb_spec search_type "alerts") as [->|H4]; [reflexivity|].
  destruct (String.eqb_spec search_type "general") as [->|H5]; [reflexivity|].
  rewrite !lookup_insert_ne by congruence.
  rewrite lookup_singleton_ne by congruence.
  reflexivity.
Qed.

Lemma enhance_query_table query search_type :
  _enhance_query query search_type
  = query +:+ ". " +:+ enhancement_table search_type.
Proof. unfold _enhance_query. rewrite enhancements_table. reflexivity. Qed.

(* ===================================================================== *)
(** * Lines of a text *)
(* ===================================================================== *)

Lemma app_assoc_str a b c : (a +:+ b) +:+ c = a +:+ b +:+ c.
Proof.
  induction a as [|x a IH]; [reflexivity|].
  rewrite !app_cons. f_equal. exact IH.
Qed.

Lemma split_nonempty sep s : PyStr.split sep s <> [].
Proof.
  destruct s as [|c s]; simpl; [discriminate|].
  destruct (Ascii.eqb c sep); [discriminate|].
  destruct (PyStr.split sep s); discriminate.
Qed.

(** The first piece is a prefix of the text. *)
Lemma split_head_prefix sep s p ps :
  PyStr.split sep s = p :: ps -> exists rest, s = p +:+ rest.
Proof.
  revert p ps. induction s as [|c s IH]; intros p ps H; simpl in H.
  - inversion H. exists "". reflexivity.
  - destruct (Ascii.eqb c sep).
    + inversion H. exists (String c s). reflexivity.
    + destruct (PyStr.split sep s) as [|q qs] eqn:E.
      * exfalso. eapply split_nonempty, E.
      * destruct (IH _ _ eq_refl) as [rest ->]. inversion H; subst.
        exists rest. reflexivity.
Qed.

(** Every piece is a part of the text. *)
Lemma split_piece_part sep s piece :
  piece ∈ PyStr.split sep s -> exists a b, s = a +:+ piece +:+ b.
Proof.
  revert piece. induction s as [|c s IH]; intros piece H; simpl in H.
  - apply list_elem_of_singleton in H as ->. exists "", "". reflexivity.
  - destruct (Ascii.eqb c sep).
    + apply elem_of_cons in H as [->|H].
      * exists "", (String c s). reflexivity.
      * destruct (IH _ H) as (a & b & ->). exists (String c a), b. reflexivity.
    + destruct (PyStr.split sep s) as [|q qs] eqn:E.
      * exfalso. eapply split_nonempty, E.
      * apply elem_of_cons in H as [->|H].
        -- destruct (split_head_prefix _ _ _ _ E) as [rest ->].
           exists "", rest. reflexivity.
        -- destruct (IH piece) as (a & b & ->); [right; exact H|].
           exists (String c a), b. reflexivity.
Qed.

(** What a line contains, the text contains. *)
Lemma split_piece_contains sep needle s piece :
  piece ∈ PyStr.split sep s ->
  PyStr.contains needle piece = true -> PyStr.contains needle s = true.
Proof.
  intros Hp Hc.
  destruct (split_piece_part _ _ _ Hp) as (a & b & ->).
  destruct (contains_inv _ _ Hc) as (pre & post & ->).
  rewrite !app_assoc_str. rewrite <- (app_assoc_str a pre).
  apply contains_app.
Qed.

(** A text without [http] has no sources. *)
Lemma extract_sources_no_http answer :
  PyStr.contains "http" answer = false -> _extract_sources answer = [].
Proof.
  intros H. apply extract_sources_nil.
  destruct (scan_lines (PyStr.split PyStr.newline answer)) as [|u us] eqn:E;
    [reflexivity|].
  assert (Hu : u ∈ scan_lines (PyStr.split PyStr.newline answer))
    by (rewrite E; left).
  apply elem_of_scan_lines in Hu as (line & Hin & _ & Hu).
  destruct (PyStr.contains "http" line) eqn:Hl.
  - rewrite (split_piece_contains _ _ _ _ Hin Hl) in H. discriminate.
  - rewrite (findall_no_http _ Hl) in Hu. inversion Hu.
Qed.

(* ===================================================================== *)
(** * Running [health_check] *)
(* ===================================================================== *)

Lemma health_check_response self w resp :
  transport w (health_request self) = Ret resp ->
  health_check self w
  = (Ret (status_code resp =? 200), record_request (health_request self) w).
Proof.
  intros H. unfold health_check, try_except, bind, client_send. rewrite H.
  reflexivity.
Qed.

Lemma health_check_exception self w e :
  transport w (health_request self) = Raise e ->
  health_check self w
  = (Ret false,
     log_line ("External search health check failed: " +:+ exn_text e)
       (record_request (health_request self) w)).
Proof.
  intros H. unfold health_check, try_except, bind, client_send. rewrite H.
  reflexivity.
Qed.



Lemma answer_of_completion_body answer :
  answer_of (completion_body answer) = Ret (PStr answer).
Proof. reflexivity. Qed.

(** A domain operation issues the one request of its [search]. *)
Lemma call_sends_once self c w :
  sent (snd (call self c w))
  = sent w ++ [search_request self
                 (_enhance_query (call_query c) (call_search_type c))].
Proof.
  pose proof (search_sends_once self (call_query c) (call_search_type c) w) as Hsent.
  destruct (search_returns self (call_query c) (call_search_type c) w)
    as (r & w1 & H & Hshape).
  rewrite H in Hsent. simpl in Hsent.
  destruct (shape_success_flag _ _ Hshape) as [Hs|Hs].
  - destruct (shape_success_fields _ _ Hs Hshape) as (answer & Ha & _).
    rewrite (call_on_success self c w r w1 _ H Hs Ha).
    pose proof (parsed_object_sent c (PStr answer) w1) as Hp.
    destruct (parsed_object c (PStr answer) w1) as [[obj|e] w2];
      simpl in Hp |- *; rewrite Hp; exact Hsent.
  - rewrite (call_on_failure self c w r w1 H Hs). exact Hsent.
Qed.

Lemma call_key_not_success c : call_key c <> "success".
Proof. destruct c; discriminate. Qed.

Lemma call_key_not_error c : call_key c <> "error".
Proof. destruct c; discriminate. Qed.

(** The price parser: the placeholder, stamped with the reading of the clock
    it takes. *)
Lemma parse_price_response_run answer w :
  _parse_price_response answer w =
    (Ret (PDict {[ "commodity" := PStr "";
                   "current_price" := PInt 0;
                   "currency" := PStr "EUR";
                   "unit" := PStr "ton";
                   "trend" := PStr "stable";
                   "last_updated" := PStr (isoformat (clock w (clock_reads w))) ]}),
     tick w).
Proof. reflexivity. Qed.

(** The templates, split around the number of days and around the crops. *)
Lemma weather_query_days location days :
  weather_query location days
  = ("Weather forecast for " +:+ location +:+ " next ")
    +:+ (pretty days +:+ " days")
    +:+ " for farming agricultural planning temperature rainfall humidity".
Proof. unfold weather_query. rewrite !app_assoc_str. reflexivity. Qed.

Lemma alerts_query_crops region crops :
  alerts_query region crops
  = ("Current pest disease alerts warnings " +:+ region +:+ " for ")
    +:+ PyStr.join ", " crops +:+ " crops".
Proof. unfold alerts_query. rewrite !app_assoc_str. reflexivity. Qed.

(* ===================================================================== *)
(** * Runs with interruptions *)
(* ===================================================================== *)


















(* ===================================================================== *)
(** * The properties of the specification *)
(* ===================================================================== *)




(** C2.  On status 200 with a body whose answer is the text [answer],
    [search] returns the envelope with [success] true, that answer, the
    search type it was given, the sources extracted from the answer and the
    clock reading of the call in ISO format.  The sources hold no URL twice,
    and a URL is among them exactly when the pattern finds it in a line of
    the answer that mentions "http" or "www.".  The body "see http://a.example
    twice: http://a.example" gives the one source "http://a.example". *)
Theorem search_success_envelope self query search_type w resp result answer :
  transport w (search_request self (_enhance_query query search_type)) = Ret resp ->
  status_code resp = 200 ->
  json resp = Ret result ->
  answer_of result = Ret (PStr answer) ->
  search self query search_type w =
    (Ret {[ "success" := PBool true;
            "answer" := PStr answer;
            "search_type" := PStr search_type;
            "sources" := PList (map PStr (_extract_sources answer));
            "timestamp" := PStr (isoformat (clock w (clock_reads w))) ]},
     tick (record_request
             (search_request self (_enhance_query query search_type)) w))
  /\ NoDup (_extract_sources answer)
  /\ (forall u,
        u ∈ _extract_sources answer <->
        exists line,
          line ∈ PyStr.split PyStr.newline answer
          /\ mentions_url line = true
          /\ u ∈ Re.findall line)
  /\ _extract_sources "see http://a.example twice: http://a.example"
     = ["http://a.example"].
Proof.
  intros H Hs Hj Ha. split; [|split; [|split]].
  - apply search_passes.
    rewrite (search_try_200 _ _ _ w resp H Hs), Hj, Ha. reflexivity.
  - apply extract_sources_NoDup.
  - intros u. rewrite elem_of_extract_sources. apply elem_of_scan_lines.
  - vm_compute. reflexivity.
Qed.

Lemma search_success_envelope_witness :
  search an_adapter "plant protection" "general"
    (world_replying
       (Ret {| status_code := 200;
               json := Ret (completion_body
                              "see http://a.example twice: http://a.example") |}))
  = (Ret {[ "success" := PBool true;
            "answer" := PStr "see http://a.example twice: http://a.example";
            "search_type" := PStr "general";
            "sources" :=
              PList (map PStr (_extract_sources
                                 "see http://a.example twice: http://a.example"));
            "timestamp" := PStr (isoformat noon) ]},
     tick (record_request
             (search_request an_adapter
                (_enhance_query "plant protection" "general"))
             (world_replying
                (Ret {| status_code := 200;
                        json := Ret (completion_body
                                       "see http://a.example twice: http://a.example") |})))).
Proof.
  exact (proj1 (search_success_envelope an_adapter "plant protection" "general"
                  (world_replying
                     (Ret {| status_code := 200;
                             json := Ret (completion_body
                                            "see http://a.example twice: http://a.example") |}))
                  {| status_code := 200;
                     json := Ret (completion_body
                                    "see http://a.example twice: http://a.example") |}
                  (completion_body "see http://a.example twice: http://a.example")
                  "see http://a.example twice: http://a.example"
                  eq_refl eq_refl eq_refl eq_refl)).
Defined.

(** C3, as the specification states it, fails: the enhanced query is not the
    query with the suffix of the table appended to it, because the code puts
    a period and a space between the two. *)
Lemma enhanced_query_is_not_query_then_suffix :
  _enhance_query "rain tomorrow" "weather"
  <> "rain tomorrow" +:+ enhancement_table "weather".
Proof. vm_compute. discriminate. Qed.

(** C3, amended.  For every query and every search type, recognized or not,
    the enhanced query is the query, then a period and a space, then exactly
    the suffix of the enhancement table for that search type, and this is the
    content of the user message of the one request [search] sends.  A search
    type outside the five of the table gets the suffix of "general". *)
Theorem enhanced_query_is_query_separator_suffix self query search_type w :
  _enhance_query query search_type
  = query +:+ ". " +:+ enhancement_table search_type
  /\ (exists req,
        sent (snd (search self query search_type w)) = sent w ++ [req]
        /\ user_content req
           = Some (PStr (query +:+ ". " +:+ enhancement_table search_type)))
  /\ (search_type <> "weather" -> search_type <> "prices" ->
      search_type <> "news" -> search_type <> "alerts" ->
      enhancement_table search_type = enhancement_table "general").
Proof.
  split; [|split].
  - apply enhance_query_table.
  - exists (search_request self (_enhance_query query search_type)). split.
    + apply search_sends_once.
    + rewrite enhance_query_table. reflexivity.
  - intros H1 H2 H3 H4. unfold enhancement_table.
    destruct (String.eqb_spec search_type "weather"); [contradiction|].
    destruct (String.eqb_spec search_type "prices"); [contradiction|].
    destruct (String.eqb_spec search_type "news"); [contradiction|].
    destruct (String.eqb_spec search_type "alerts"); [contradiction|].
    reflexivity.
Qed.

Lemma enhanced_query_is_query_separator_suffix_witness :
  enhancement_table "soil" = enhancement_table "general"
  /\ _enhance_query "liming" "soil"
     = "liming. Provide comprehensive agricultural information with sources.".
Proof.
  pose (T := enhanced_query_is_query_separator_suffix an_adapter "liming" "soil"
               (world_replying (Raise connection_refused))).
  split.
  - apply (proj2 (proj2 T)); discriminate.
  - exact (proj1 T).
Defined.

(** C4.  On a status [N] other than 200, [search] returns the envelope with
    [success] false, the error "API error: N" and the message "Unable to
    fetch current information", having issued exactly one request: the
    requests sent are those sent before and this one. *)
Theorem search_api_error self query search_type w resp :
  transport w (search_request self (_enhance_query query search_type)) = Ret resp ->
  status_code resp <> 200 ->
  exists w',
    search self query search_type w =
      (Ret {[ "success" := PBool false;
              "error" := PStr ("API error: " +:+ pretty (status_code resp));
              "message" := PStr "Unable to fetch current information" ]},
       w')
    /\ sent w' = sent w ++ [search_request self (_enhance_query query search_type)]
    /\ length (sent w') = S (length (sent w)).
Proof.
  intros H Hs. eexists. split; [|split].
  - apply search_passes, (search_try_status _ _ _ w resp H Hs).
  - reflexivity.
  - simpl. rewrite length_app. simpl. lia.
Qed.

Lemma search_api_error_witness :
  exists w',
    search an_adapter "wheat price" "prices"
      (world_replying (Ret {| status_code := 429; json := Ret PNone |}))
    = (Ret {[ "success" := PBool false;
              "error" := PStr "API error: 429";
              "message" := PStr "Unable to fetch current information" ]},
       w')
    /\ sent w' = [search_request an_adapter (_enhance_query "wheat price" "prices")]
    /\ length (sent w') = 1%nat.
Proof.
  exact (search_api_error an_adapter "wheat price" "prices"
           (world_replying (Ret {| status_code := 429; json := Ret PNone |}))
           {| status_code := 429; json := Ret PNone |}
           eq_refl ltac:(discriminate)).
Defined.

(** C5.  Every envelope of [search] -- and [search] always produces one --
    holds exactly one of [answer] and [error]: [answer] is there if and only
    if [success] is true, [error] if and only if [success] is false. *)
Theorem search_answer_xor_error self query search_type w :
  exists r w',
    search self query search_type w = (Ret r, w')
    /\ (is_Some (r !! "answer") <-> r !! "success" = Some (PBool true))
    /\ (is_Some (r !! "error") <-> r !! "success" = Some (PBool false))
    /\ (is_Some (r !! "answer") <-> ~ is_Some (r !! "error")).
Proof.
  destruct (search_returns self query search_type w) as (r & w' & H & Hshape).
  exists r, w'. split; [exact H|].
  destruct (shape_lookups _ _ Hshape)
    as [(Hs & [a Ha] & He) | (Hs & Ha & [e He])]; rewrite Hs, Ha, He.
  - split; [split; eauto|].
    split; [split; [intros [? ?]; discriminate | discriminate]|].
    split; [intros _ [? ?]; discriminate | eauto].
  - split; [split; [intros [? ?]; discriminate | discriminate]|].
    split; [split; eauto|].
    split; [intros [? ?]; discriminate | intros Hn; exfalso; apply Hn; eauto].
Qed.

(** C6.  Each domain operation returns the envelope of its [search] with
    [success] and [error] as [search] left them; the key of the operation
    ([weather_data], [price_data], [news_items], [alerts]) is in the result
    if and only if [success] is true, and then it holds what the parser of
    the operation returns; every other key reads as it does in the envelope
    of [search]. *)
Theorem call_extends_search_envelope self c w :
  exists r w1 r' w2,
    search self (call_query c) (call_search_type c) w = (Ret r, w1)
    /\ call self c w = (Ret r', w2)
    /\ r' !! "success" = r !! "success"
    /\ r' !! "error" = r !! "error"
    /\ (is_Some (r' !! call_key c) <-> r !! "success" = Some (PBool true))
    /\ (forall k, k <> call_key c -> r' !! k = r !! k)
    /\ (r !! "success" = Some (PBool true) ->
        exists answer obj,
          r !! "answer" = Some answer
          /\ parsed_object c answer w1 = (Ret obj, w2)
          /\ r' = <[call_key c := obj]> r)
    /\ (r !! "success" <> Some (PBool true) -> r' = r /\ w2 = w1).
Proof.
  destruct (search_returns self (call_query c) (call_search_type c) w)
    as (r & w1 & H & Hshape).
  destruct (shape_success_flag _ _ Hshape) as [Hs|Hs].
  - destruct (shape_success_fields _ _ Hs Hshape) as (answer & Ha & _).
    pose proof (call_on_success self c w r w1 _ H Hs Ha) as Hc.
    destruct (parsed_object_returns c (PStr answer) w1) as (obj & w2 & Hp).
    rewrite Hp in Hc.
    exists r, w1, (<[call_key c := obj]> r), w2.
    split; [exact H|]. split; [exact Hc|].
    split; [apply lookup_insert_ne, call_key_not_success|].
    split; [apply lookup_insert_ne, call_key_not_error|].
    split; [rewrite lookup_insert_eq; split; eauto|].
    split; [intros k Hk; apply lookup_insert_ne; congruence|].
    split; [intros _; exists (PStr answer), obj; auto|].
    intros Hn. contradiction.
  - pose proof (call_on_failure self c w r w1 H Hs) as Hc.
    exists r, w1, r, w1.
    split; [exact H|]. split; [exact Hc|].
    split; [reflexivity|]. split; [reflexivity|].
    split.
    { rewrite (shape_no_call_key _ _ c Hshape), Hs. split.
      - intros [? ?]. discriminate.
      - discriminate. }
    split; [reflexivity|].
    split; [rewrite Hs; discriminate|auto].
Qed.

Lemma call_extends_search_envelope_witness :
  exists r r',
    fst (search an_adapter (weather_query "Zagreb" 5) "weather"
           (world_replying
              (Ret {| status_code := 200;
                      json := Ret (completion_body "Sunny.") |}))) = Ret r
    /\ fst (call an_adapter (WeatherForecast "Zagreb" 5)
              (world_replying
                 (Ret {| status_code := 200;
                         json := Ret (completion_body "Sunny.") |}))) = Ret r'
    /\ r' !! "timestamp" = r !! "timestamp".
Proof.
  destruct (call_extends_search_envelope an_adapter (WeatherForecast "Zagreb" 5)
              (world_replying
                 (Ret {| status_code := 200;
                         json := Ret (completion_body "Sunny.") |})))
    as (r & w1 & r' & w2 & Hs & Hc & _ & _ & _ & Hframe & _).
  exists r, r'. simpl in Hs. rewrite Hs, Hc.
  split; [reflexivity|]. split; [reflexivity|].
  apply Hframe. discriminate.
Defined.

(** C7.  [health_check] returns, and returns true if and only if the
    transport answers the GET to the models endpoint with status 200: on a
    response it returns whether the status is 200, and on an exception it
    logs the failure and returns false. *)
Theorem health_check_true_iff_200 self w :
  exists b w',
    health_check self w = (Ret b, w')
    /\ (b = true <->
        exists resp,
          transport w (health_request self) = Ret resp /\ status_code resp = 200)
    /\ (forall resp,
          transport w (health_request self) = Ret resp ->
          b = (status_code resp =? 200))
    /\ (forall e,
          transport w (health_request self) = Raise e ->
          b = false
          /\ logged w' = logged w
               ++ ["External search health check failed: " +:+ exn_text e]).
Proof.
  destruct (transport w (health_request self)) as [resp|e] eqn:H.
  - exists (status_code resp =? 200), (record_request (health_request self) w).
    split; [apply health_check_response, H|].
    split; [|split].
    + split.
      * intros Hb. exists resp. split; [reflexivity|]. apply Z.eqb_eq, Hb.
      * intros (resp' & Hr & Hs). inversion Hr; subst. apply Z.eqb_eq, Hs.
    + intros resp' Hr. inversion Hr; subst. reflexivity.
    + intros e Hr. discriminate.
  - exists false. eexists.
    split; [apply health_check_exception, H|].
    split; [|split].
    + split; [discriminate|]. intros (resp & Hr & _). discriminate.
    + intros resp Hr. discriminate.
    + intros e' Hr. inversion Hr; subst. split; reflexivity.
Qed.

Lemma health_check_true_iff_200_witness :
  fst (health_check an_adapter
         (world_replying (Ret {| status_code := 200; json := Ret PNone |})))
  = Ret true
  /\ fst (health_check an_adapter
            (world_replying (Ret {| status_code := 503; json := Ret PNone |})))
     = Ret false
  /\ fst (health_check an_adapter (world_replying (Raise connection_refused)))
     = Ret false.
Proof.
  split; [|split].
  - destruct (health_check_true_iff_200 an_adapter
                (world_replying (Ret {| status_code := 200; json := Ret PNone |})))
      as (b & w' & H & _ & Hresp & _).
    rewrite H. simpl. f_equal. apply (Hresp _ eq_refl).
  - destruct (health_check_true_iff_200 an_adapter
                (world_replying (Ret {| status_code := 503; json := Ret PNone |})))
      as (b & w' & H & _ & Hresp & _).
    rewrite H. simpl. f_equal. apply (Hresp _ eq_refl).
  - destruct (health_check_true_iff_200 an_adapter
                (world_replying (Raise connection_refused)))
      as (b & w' & H & _ & _ & Hexn).
    rewrite H. simpl. f_equal. apply (Hexn _ eq_refl).
Defined.

(** C8.  The domain operations build their queries from the templates.  The
    weather query names the location and the number of days followed by
    " days"; the alerts query names the region and the crops joined by ", ".
    For Zagreb and 5 days the query contains "Zagreb" and "5 days"; for
    Slavonia with wheat and maize it contains "wheat, maize" and "Slavonia".
    The query, enhanced for the search type of the operation, is the content
    of the user message of the request the operation sends. *)
Theorem domain_queries_follow_templates :
  (PyStr.contains "Zagreb" (weather_query "Zagreb" 5) = true
   /\ PyStr.contains "5 days" (weather_query "Zagreb" 5) = true)
  /\ (PyStr.contains "wheat, maize" (alerts_query "Slavonia" ["wheat"; "maize"]) = true
      /\ PyStr.contains "Slavonia" (alerts_query "Slavonia" ["wheat"; "maize"]) = true)
  /\ (forall location days,
        PyStr.contains location (weather_query location days) = true
        /\ PyStr.contains (pretty days +:+ " days") (weather_query location days) = true)
  /\ (forall region crops,
        PyStr.contains (PyStr.join ", " crops) (alerts_query region crops) = true
        /\ PyStr.contains region (alerts_query region crops) = true)
  /\ (forall self c w,
        exists req,
          sent (snd (call self c w)) = sent w ++ [req]
          /\ user_content req
             = Some (PStr (_enhance_query (call_query c) (call_search_type c))))
  /\ call_query (WeatherForecast "Zagreb" 5)
     = "Weather forecast for Zagreb next 5 days for farming agricultural planning temperature rainfall humidity"
  /\ call_query (PestDiseaseAlerts "Slavonia" ["wheat"; "maize"])
     = "Current pest disease alerts warnings Slavonia for wheat, maize crops".
Proof.
  split; [split; vm_compute; reflexivity|].
  split; [split; vm_compute; reflexivity|].
  split; [|split; [|split; [|split]]].
  - intros location days. split.
    + apply contains_app.
    + rewrite weather_query_days. apply contains_app.
  - intros region crops. split.
    + rewrite alerts_query_crops. apply contains_app.
    + apply contains_app.
  - intros self c w.
    exists (search_request self (_enhance_query (call_query c) (call_search_type c))).
    split; [apply call_sends_once|reflexivity].
  - vm_compute. reflexivity.
  - vm_compute. reflexivity.
Qed.

(** C9.  Whenever the search behind [get_market_prices] succeeds, whatever
    the commodity, the market and the answer, the operation attaches under
    [price_data] the placeholder with an empty commodity, price 0, currency
    EUR, unit ton, trend stable, and as [last_updated] the clock reading
    taken when the parser is called, in ISO format.  The parser ignores the
    answer it is given. *)
Theorem market_prices_placeholder self commodity market w r w1 :
  search self (prices_query commodity market) "prices" w = (Ret r, w1) ->
  r !! "success" = Some (PBool true) ->
  get_market_prices self commodity market w =
    (Ret (<["price_data" :=
              PDict {[ "commodity" := PStr "";
                       "current_price" := PInt 0;
                       "currency" := PStr "EUR";
                       "unit" := PStr "ton";
                       "trend" := PStr "stable";
                       "last_updated" :=
                         PStr (isoformat (clock w1 (clock_reads w1))) ]}]> r),
     tick w1)
  /\ (forall answer answer' w',
        _parse_price_response answer w' = _parse_price_response answer' w').
Proof.
  intros H Hs. split; [|reflexivity].
  destruct (search_returns self (prices_query commodity market) "prices" w)
    as (r0 & w0 & H0 & Hshape).
  rewrite H in H0. inversion H0; subst r0 w0.
  destruct (shape_success_fields _ _ Hs Hshape) as (answer & Ha & _).
  pose proof (call_on_success self (MarketPrices commodity market) w r w1 _ H Hs Ha)
    as Hc.
  exact Hc.
Qed.

Lemma market_prices_placeholder_witness :
  exists r w1,
    search an_adapter (prices_query "wheat" "Croatia") "prices"
      (world_replying
         (Ret {| status_code := 200;
                 json := Ret (completion_body "Wheat trades at 210.") |}))
    = (Ret r, w1)
    /\ get_market_prices an_adapter "wheat" "Croatia"
         (world_replying
            (Ret {| status_code := 200;
                    json := Ret (completion_body "Wheat trades at 210.") |}))
       = (Ret (<["price_data" :=
                   PDict {[ "commodity" := PStr "";
                            "current_price" := PInt 0;
                            "currency" := PStr "EUR";
                            "unit" := PStr "ton";
                            "trend" := PStr "stable";
                            "last_updated" :=
                              PStr (isoformat (clock w1 (clock_reads w1))) ]}]> r),
          tick w1).
Proof.
  eexists _, _. split.
  - apply search_passes. reflexivity.
  - refine (proj1 (market_prices_placeholder an_adapter "wheat" "Croatia" _ _ _ _ _)).
    + apply search_passes. reflexivity.
    + reflexivity.
Defined.

(** C10.  A line that contains "www." and nowhere "http" yields no URL: the
    pattern finds nothing in a text without "http", and whatever it finds
    starts with "http://" or "https://".  So an answer without "http" has no
    sources; the answer "www.example.com" has none. *)
Theorem www_without_http_yields_no_source :
  (forall line,
     PyStr.contains "www." line = true ->
     PyStr.contains "http" line = false ->
     mentions_url line = true /\ Re.findall line = [])
  /\ (forall answer,
        PyStr.contains "http" answer = false -> _extract_sources answer = [])
  /\ (forall line u,
        u ∈ Re.findall line ->
        PyStr.startswith u "http://" = true \/ PyStr.startswith u "https://" = true)
  /\ _extract_sources "www.example.com" = [].
Proof.
  split; [|split; [|split]].
  - intros line Hw Hh. split.
    + unfold mentions_url. rewrite Hw. apply orb_true_r.
    + apply findall_no_http, Hh.
  - apply extract_sources_no_http.
  - intros line u. apply findall_from_scheme.
  - vm_compute. reflexivity.
Qed.

Lemma www_without_http_yields_no_source_witness :
  (mentions_url "visit www.example.com today" = true
   /\ Re.findall "visit www.example.com today" = [])
  /\ _extract_sources "www.example.com" = [].
Proof.
  split.
  - apply (proj1 www_without_http_yields_no_source); reflexivity.
  - apply (proj1 (proj2 www_without_http_yields_no_source)); reflexivity.
Defined.

(* ===================================================================== *)
(** * More about the pattern: what a match is and where it ends *)
(* ===================================================================== *)

Lemma str_length_app a b :
  String.length (a +:+ b) = (String.length a + String.length b)%nat.
Proof.
  induction a as [|c a IH]; [reflexivity|].
  rewrite app_cons. simpl. rewrite IH. reflexivity.
Qed.

Lemma app_nil_r_str a : a +:+ "" = a.
Proof.
  induction a as [|c a IH]; [reflexivity|].
  rewrite app_cons, IH. reflexivity.
Qed.

Lemma atoms_url_chars s : url_chars (Re.atoms s) = true.
Proof.
  induction s as [|c s IH]; [reflexivity|].
  rewrite atoms_cons. destruct (Re.one_char_atom c) eqn:E; [|reflexivity].
  simpl. rewrite E, IH. reflexivity.
Qed.

(** The loop takes a prefix of the text ... *)
Lemma atoms_prefix s : exists rest, s = Re.atoms s +:+ rest.
Proof.
  induction s as [|c s IH].
  - exists "". reflexivity.
  - rewrite atoms_cons. destruct (Re.one_char_atom c).
    + destruct IH as [rest IH]. exists rest. rewrite app_cons, <- IH. reflexivity.
    + exists (String c s). reflexivity.
Qed.

(** ... and stops at the first character outside the classes. *)
Lemma atoms_stop body c rest :
  url_chars body = true -> Re.one_char_atom c = false ->
  Re.atoms (body +:+ String c rest) = body.
Proof.
  intros Hb Hc. induction body as [|x body IH].
  - rewrite app_nil_l, atoms_cons, Hc. reflexivity.
  - simpl in Hb. apply andb_true_iff in Hb as [Hx Hb].
    rewrite app_cons, atoms_cons, Hx, (IH Hb). reflexivity.
Qed.

Lemma atoms_fixed body : url_chars body = true -> Re.atoms body = body.
Proof.
  intros Hb. induction body as [|x body IH]; [reflexivity|].
  simpl in Hb. apply andb_true_iff in Hb as [Hx Hb].
  rewrite atoms_cons, Hx, (IH Hb). reflexivity.
Qed.

Lemma scheme_of_text sch r :
  sch = "http://" \/ sch = "https://" ->
  Re.scheme (sch +:+ r) = Some (sch, r).
Proof. intros [->| ->]; reflexivity. Qed.

(** A match, in full: a scheme and the non-empty run of class characters
    after it, at the front of the text. *)
Lemma match_here_shape s m :
  Re.match_here s = Some m ->
  exists sch body post,
    (sch = "http://" \/ sch = "https://")
    /\ body <> "" /\ url_chars body = true
    /\ m = sch +:+ body /\ s = m +:+ post.
Proof.
  unfold Re.match_here. intros H.
  destruct (Re.scheme s) as [[sch r]|] eqn:E; [|discriminate].
  apply scheme_inv in E as [Hsch Hs].
  pose proof (atoms_url_chars r) as Hu.
  destruct (atoms_prefix r) as [post Hr].
  destruct (Re.atoms r) as [|c body]; [discriminate|].
  inversion H; subst m.
  exists sch, (String c body), post.
  split; [exact Hsch|]. split; [discriminate|]. split; [exact Hu|].
  split; [reflexivity|]. rewrite app_assoc_str, <- Hr. exact Hs.
Qed.

Lemma match_here_cut sch body c rest :
  sch = "http://" \/ sch = "https://" ->
  body <> "" -> url_chars body = true -> Re.one_char_atom c = false ->
  Re.match_here (sch +:+ body +:+ String c rest) = Some (sch +:+ body).
Proof.
  intros Hsch Hne Hb Hc. unfold Re.match_here.
  rewrite (scheme_of_text _ _ Hsch), (atoms_stop _ _ _ Hb Hc).
  destruct body; [contradiction|reflexivity].
Qed.

Lemma match_here_whole sch body :
  sch = "http://" \/ sch = "https://" ->
  body <> "" -> url_chars body = true ->
  Re.match_here (sch +:+ body) = Some (sch +:+ body).
Proof.
  intros Hsch Hne Hb. unfold Re.match_here.
  rewrite (scheme_of_text _ _ Hsch), (atoms_fixed _ Hb).
  destruct body; [contradiction|reflexivity].
Qed.

(** Passing over the characters still to skip. *)
Lemma findall_from_skip a s :
  Re.findall_from (String.length a) (a +:+ s) = Re.findall_from 0 s.
Proof.
  induction a as [|c a IH]; [reflexivity|].
  rewrite app_cons. simpl. exact IH.
Qed.

Lemma findall_from_short s :
  forall k, (String.length s <= k)%nat -> Re.findall_from k s = [].
Proof.
  induction s as [|c s IH]; intros k Hk; [reflexivity|].
  simpl in Hk. destruct k as [|k]; [lia|].
  cbn [Re.findall_from]. apply IH. lia.
Qed.

(** What the scan reports is a match at some place of the text. *)
Lemma findall_from_match s :
  forall k u, u ∈ Re.findall_from k s ->
    exists pre t, s = pre +:+ t /\ Re.match_here t = Some u.
Proof.
  induction s as [|c s IH]; intros k u Hu.
  - cbn in Hu. inversion Hu.
  - assert (Htail : forall k', u ∈ Re.findall_from k' s ->
              exists pre t, String c s = pre +:+ t /\ Re.match_here t = Some u).
    { intros k' H. destruct (IH _ _ H) as (pre & t & -> & Hm).
      exists (String c pre), t. split; [reflexivity|exact Hm]. }
    cbn [Re.findall_from] in Hu. destruct k as [|k]; [|eapply Htail, Hu].
    destruct (Re.match_here (String c s)) as [m|] eqn:Em; [|eapply Htail, Hu].
    apply elem_of_cons in Hu as [->|Hu]; [|eapply Htail, Hu].
    exists "", (String c s). split; [reflexivity|exact Em].
Qed.

(** The scan over a text that is one match. *)
Lemma findall_whole sch body :
  sch = "http://" \/ sch = "https://" ->
  body <> "" -> url_chars body = true ->
  Re.findall (sch +:+ body) = [sch +:+ body].
Proof.
  intros Hsch Hne Hb. pose proof (match_here_whole _ _ Hsch Hne Hb) as Hm.
  unfold Re.findall.
  destruct (sch +:+ body) as [|x m'] eqn:E.
  - destruct Hsch as [->| ->]; discriminate.
  - cbn [Re.findall_from]. rewrite Hm. f_equal.
    apply findall_from_short. simpl. lia.
Qed.

(* ===================================================================== *)
(** * The scan and the lines *)
(* ===================================================================== *)

Lemma newline_not_atom : Re.one_char_atom PyStr.newline = false.
Proof. reflexivity. Qed.

(** A prefix made of class characters is looked for within the line: it
    holds no newline. *)
Lemma strip_prefix_line p l rest :
  url_chars p = true ->
  PyStr.strip_prefix p (l +:+ String PyStr.newline rest)
  = match PyStr.strip_prefix p l with
    | Some r => Some (r +:+ String PyStr.newline rest)
    | None => None
    end.
Proof.
  revert l. induction p as [|a p IH]; intros l Hp; [reflexivity|].
  simpl in Hp. apply andb_true_iff in Hp as [Ha Hp].
  destruct l as [|c l].
  - rewrite app_nil_l. simpl.
    destruct (Ascii.eqb a PyStr.newline) eqn:E; [|reflexivity].
    apply Ascii.eqb_eq in E. subst a. rewrite newline_not_atom in Ha.
    discriminate.
  - rewrite app_cons. simpl. destruct (Ascii.eqb a c); [apply IH, Hp|reflexivity].
Qed.

Lemma scheme_line l rest :
  Re.scheme (l +:+ String PyStr.newline rest)
  = match Re.scheme l with
    | Some (sch, r) => Some (sch, r +:+ String PyStr.newline rest)
    | None => None
    end.
Proof.
  unfold Re.scheme. rewrite strip_prefix_line by reflexivity.
  destruct (PyStr.strip_prefix "http" l) as [r0|]; [|reflexivity].
  destruct r0 as [|c r1].
  - reflexivity.
  - rewrite (strip_prefix_line "://" (String c r1)) by reflexivity.
    rewrite app_cons.
    destruct (Re.is_char "s" c).
    + rewrite (strip_prefix_line "://" r1) by reflexivity.
      destruct (PyStr.strip_prefix "://" r1); [reflexivity|].
      destruct (PyStr.strip_prefix "://" (String c r1)); reflexivity.
    + destruct (PyStr.strip_prefix "://" (String c r1)); reflexivity.
Qed.

Lemma atoms_line l rest :
  Re.atoms (l +:+ String PyStr.newline rest) = Re.atoms l.
Proof.
  induction l as [|c l IH].
  - rewrite app_nil_l, atoms_cons, newline_not_atom. reflexivity.
  - rewrite app_cons, !atoms_cons, IH. reflexivity.
Qed.

(** A match never reaches over the end of a line. *)
Lemma match_here_line l rest :
  Re.match_here (l +:+ String PyStr.newline rest) = Re.match_here l.
Proof.
  unfold Re.match_here. rewrite scheme_line.
  destruct (Re.scheme l) as [[sch r]|]; [|reflexivity].
  rewrite atoms_line. reflexivity.
Qed.

Lemma match_here_length l m :
  Re.match_here l = Some m -> (String.length m <= String.length l)%nat.
Proof.
  intros H. apply match_here_shape in H as (sch & body & post & _ & _ & _ & _ & ->).
  rewrite str_length_app. lia.
Qed.

Lemma findall_from_line rest l :
  forall k, (k <= String.length l)%nat ->
    Re.findall_from k (l +:+ String PyStr.newline rest)
    = Re.findall_from k l ++ Re.findall rest.
Proof.
  induction l as [|c l IH]; intros k Hk.
  - simpl in Hk. assert (k = 0%nat) as -> by lia. reflexivity.
  - rewrite app_cons. cbn [Re.findall_from]. destruct k as [|k].
    + rewrite <- app_cons, match_here_line.
      destruct (Re.match_here (String c l)) as [m|] eqn:Em.
      * apply match_here_length in Em. simpl in Em.
        rewrite IH by lia. reflexivity.
      * apply IH. lia.
    + apply IH. simpl in Hk. lia.
Qed.

(** Splitting on a character and joining with it gives the text back. *)
Lemma join_split sep s :
  PyStr.join (String sep "") (PyStr.split sep s) = s.
Proof.
  induction s as [|c s IH]; [reflexivity|].
  simpl. destruct (Ascii.eqb c sep) eqn:E.
  - apply Ascii.eqb_eq in E. subst c.
    destruct (PyStr.split sep s) as [|q qs] eqn:Es.
    + exfalso. eapply split_nonempty, Es.
    + cbn [PyStr.join]. rewrite app_nil_l, app_cons, app_nil_l.
      f_equal. exact IH.
  - destruct (PyStr.split sep s) as [|q qs] eqn:Es.
    + exfalso. eapply split_nonempty, Es.
    + rewrite <- IH. destruct qs; cbn [PyStr.join]; rewrite ?app_cons; reflexivity.
Qed.

Lemma findall_join lines :
  Re.findall (PyStr.join newline_text lines) = concat (map Re.findall lines).
Proof.
  induction lines as [|p ps IH]; [reflexivity|].
  destruct ps as [|q qs].
  - simpl. rewrite app_nil_r. reflexivity.
  - change (PyStr.join newline_text (p :: q :: qs))
      with (p +:+ newline_text +:+ PyStr.join newline_text (q :: qs)).
    unfold newline_text at 1. rewrite app_cons, app_nil_l.
    unfold Re.findall at 1. rewrite findall_from_line by lia.
    rewrite IH. reflexivity.
Qed.

(** The test on the lines filters nothing out: a line that fails it has no
    match. *)
Lemma scan_lines_all lines :
  scan_lines lines = concat (map Re.findall lines).
Proof.
  rewrite scan_lines_concat. induction lines as [|l ls IH]; [reflexivity|].
  rewrite filter_cons. destruct (decide (mentions_url l = true)) as [Hl|Hl].
  - simpl. rewrite IH. reflexivity.
  - simpl. rewrite IH. apply not_true_is_false in Hl.
    unfold mentions_url in Hl. apply orb_false_iff in Hl as [Hh _].
    rewrite (findall_no_http _ Hh). reflexivity.
Qed.

Lemma scan_lines_findall answer :
  scan_lines (PyStr.split PyStr.newline answer) = Re.findall answer.
Proof.
  rewrite scan_lines_all, <- findall_join. unfold newline_text.
  rewrite join_split. reflexivity.
Qed.

Lemma elem_of_extract_findall u answer :
  u ∈ _extract_sources answer <-> u ∈ Re.findall answer.
Proof. rewrite elem_of_extract_sources, scan_lines_findall. reflexivity. Qed.

(** After a match the scan resumes right behind it. *)
Lemma findall_after_match s m t :
  Re.match_here s = Some m -> s = m +:+ t ->
  Re.findall s = m :: Re.findall t.
Proof.
  intros Hm ->. destruct m as [|x m'].
  - apply match_here_shape in Hm as (sch & body & post & [->| ->] & _ & _ & E & _);
      discriminate.
  - unfold Re.findall. rewrite app_cons. cbn [Re.findall_from].
    rewrite <- app_cons, Hm. f_equal.
    replace (String.length (String x m') - 1)%nat with (String.length m')
      by (simpl; lia).
    apply findall_from_skip.
Qed.

Lemma url_chars_app a b :
  url_chars (a +:+ b) = url_chars a && url_chars b.
Proof.
  induction a as [|c a IH]; [reflexivity|].
  rewrite app_cons. simpl. rewrite IH, andb_assoc. reflexivity.
Qed.

(** A text of class characters holds no character from outside them. *)
Lemma url_chars_excludes c s :
  Re.one_char_atom c = false -> url_chars s = true ->
  PyStr.contains (String c "") s = false.
Proof.
  intros Hc. induction s as [|x s IH]; intros Hs; [reflexivity|].
  simpl in Hs. apply andb_true_iff in Hs as [Hx Hs].
  simpl. rewrite (IH Hs), orb_false_r. unfold PyStr.startswith. simpl.
  destruct (Ascii.eqb c x) eqn:E; [|reflexivity].
  apply Ascii.eqb_eq in E. subst x. congruence.
Qed.

(* ===================================================================== *)
(** * Further properties of source extraction *)
(* ===================================================================== *)

(** X1.  Every source is "http://" or "https://" followed by at least one
    character, and all its characters are of the classes of the pattern: a
    source holds no space and no line break. *)
Theorem sources_are_scheme_and_class_characters answer u :
  u ∈ _extract_sources answer ->
  (exists sch body,
     (sch = "http://" \/ sch = "https://")
     /\ body <> "" /\ url_chars body = true /\ u = sch +:+ body)
  /\ url_chars u = true
  /\ PyStr.contains " " u = false
  /\ PyStr.contains newline_text u = false.
Proof.
  intros Hu. apply elem_of_extract_findall in Hu.
  apply findall_from_match in Hu as (pre & t & _ & Hm).
  apply match_here_shape in Hm as (sch & body & post & Hsch & Hne & Hb & -> & _).
  assert (Hall : url_chars (sch +:+ body) = true).
  { rewrite url_chars_app, Hb. destruct Hsch as [->| ->]; reflexivity. }
  split; [exists sch, body; auto|]. split; [exact Hall|].
  split; apply url_chars_excludes; auto.
Qed.

Lemma sources_are_scheme_and_class_characters_witness :
  url_chars "https://agro.example/news?id=7" = true
  /\ PyStr.contains " " "https://agro.example/news?id=7" = false.
Proof.
  assert (H : "https://agro.example/news?id=7"
              ∈ _extract_sources "Read https://agro.example/news?id=7 for more")
    by (vm_compute; left).
  pose proof (sources_are_scheme_and_class_characters _ _ H) as (_ & Hc & Hs & _).
  split; [exact Hc|exact Hs].
Defined.

(** X2.  A match is cut at the first character that is not of the classes
    of the pattern (a space, a double quote, [#], [~], a brace, a character
    outside ASCII), and the scan goes on from that character; a match that reaches
    the end of the text is the last one. *)
Theorem match_is_cut_at_first_other_character sch body c rest :
  sch = "http://" \/ sch = "https://" ->
  body <> "" -> url_chars body = true ->
  Re.one_char_atom c = false ->
  Re.findall (sch +:+ body +:+ String c rest)
  = (sch +:+ body) :: Re.findall (String c rest)
  /\ Re.findall (sch +:+ body) = [sch +:+ body].
Proof.
  intros Hsch Hne Hb Hc. split.
  - apply findall_after_match.
    + apply match_here_cut; assumption.
    + rewrite app_assoc_str. reflexivity.
  - apply findall_whole; assumption.
Qed.

Lemma match_is_cut_at_first_other_character_witness :
  Re.findall "https://agro.example/guide#sowing and more"
  = ["https://agro.example/guide"].
Proof.
  pose proof (match_is_cut_at_first_other_character
                "https://" "agro.example/guide" "#" "sowing and more"
                (or_intror eq_refl) ltac:(discriminate) eq_refl eq_refl)
    as [H _].
  etransitivity; [exact H|]. reflexivity.
Defined.

(** X3.  The split into lines and the test for "http" or "www." change
    nothing: the sources are exactly the matches of the pattern over the
    whole answer, without duplicates. *)
Theorem sources_are_matches_of_whole_answer answer :
  _extract_sources answer = elements (list_to_set (Re.findall answer) : gset string)
  /\ scan_lines (PyStr.split PyStr.newline answer) = Re.findall answer
  /\ (forall u, u ∈ _extract_sources answer <-> u ∈ Re.findall answer).
Proof.
  split; [|split].
  - unfold _extract_sources. rewrite scan_lines_findall. reflexivity.
  - apply scan_lines_findall.
  - intros u. apply elem_of_extract_findall.
Qed.

(** X4.  Extraction gives its own results back: a source, taken as an
    answer, has itself as its one source. *)
Theorem extraction_fixes_its_sources answer u :
  u ∈ _extract_sources answer -> _extract_sources u = [u].
Proof.
  intros Hu. apply elem_of_extract_findall in Hu.
  apply findall_from_match in Hu as (pre & t & _ & Hm).
  apply match_here_shape in Hm as (sch & body & post & Hsch & Hne & Hb & -> & _).
  unfold _extract_sources.
  rewrite scan_lines_findall, (findall_whole _ _ Hsch Hne Hb).
  simpl. rewrite (right_id_L ∅ (∪)). apply elements_singleton.
Qed.

Lemma extraction_fixes_its_sources_witness :
  _extract_sources "http://a.example" = ["http://a.example"].
Proof.
  apply (extraction_fixes_its_sources
           "see http://a.example twice: http://a.example").
  vm_compute. left.
Defined.

(** X5.  Every source occurs in the answer as it stands: extraction never
    builds a URL that is not written there. *)
Theorem sources_occur_in_answer answer u :
  u ∈ _extract_sources answer -> PyStr.contains u answer = true.
Proof.
  intros Hu. apply elem_of_extract_findall in Hu.
  apply findall_from_match in Hu as (pre & t & -> & Hm).
  apply match_here_shape in Hm as (sch & body & post & _ & _ & _ & _ & ->).
  apply contains_app.
Qed.

Lemma sources_occur_in_answer_witness :
  PyStr.contains "http://a.example"
    "see http://a.example twice: http://a.example" = true.
Proof.
  apply sources_occur_in_answer. vm_compute. left.
Defined.

(** X6.  The sources of two texts put on separate lines are the sources of
    the one together with the sources of the other. *)
Theorem sources_of_two_parts a b u :
  u ∈ _extract_sources (a +:+ newline_text +:+ b)
  <-> u ∈ _extract_sources a \/ u ∈ _extract_sources b.
Proof.
  rewrite !elem_of_extract_findall. unfold newline_text.
  rewrite app_cons, app_nil_l. unfold Re.findall at 1.
  rewrite findall_from_line by lia. rewrite elem_of_app. reflexivity.
Qed.

(* ===================================================================== *)
(** * What [search] does to the world *)
(* ===================================================================== *)

(** The three ways [search] ends, each with the envelope it returns and the
    world it leaves: success; a status other than 200; an exception caught. *)
Lemma search_effects self query search_type w :
  let req := search_request self (_enhance_query query search_type) in
  (exists answer,
     search self query search_type w =
       (Ret {[ "success" := PBool true;
               "answer" := PStr answer;
               "search_type" := PStr search_type;
               "sources" := PList (map PStr (_extract_sources answer));
               "timestamp" := PStr (isoformat (clock w (clock_reads w))) ]},
        tick (record_request req w)))
  \/ (exists status : Z,
        search self query search_type w =
          (Ret {[ "success" := PBool false;
                  "error" := PStr ("API error: " +:+ pretty status);
                  "message" := PStr "Unable to fetch current information" ]},
           log_line ("Perplexity API error: " +:+ pretty status)
             (record_request req w)))
  \/ (exists e,
        search self query search_type w =
          (Ret {[ "success" := PBool false;
                  "error" := PStr (exn_text e);
                  "message" := PStr "Search service temporarily unavailable" ]},
           log_line ("External search error: " +:+ exn_text e)
             (record_request req w))).
Proof.
  intros req. subst req.
  destruct (transport w (search_request self (_enhance_query query search_type)))
    as [resp|e] eqn:H.
  - destruct (Z.eq_dec (status_code resp) 200) as [Hs|Hs].
    + pose proof (search_try_200 _ _ _ w resp H Hs) as E.
      destruct (json resp) as [result|e].
      * destruct (answer_of result) as [answer|e].
        -- destruct answer as [| | | |a| |];
             try (right; right; eexists; apply (search_catches _ _ _ _ _ _ E)).
           left. exists a. apply search_passes, E.
        -- right; right. eexists. apply (search_catches _ _ _ _ _ _ E).
      * right; right. eexists. apply (search_catches _ _ _ _ _ _ E).
    + right; left. exists (status_code resp).
      apply search_passes, (search_try_status _ _ _ w resp H Hs).
  - right; right. exists e.
    apply search_catches, search_try_transport, H.
Qed.

(* ===================================================================== *)
(** * Further properties of the operations *)
(* ===================================================================== *)


(** X8.  [search] logs nothing when it succeeds and exactly one line when it
    fails, and that line ends with the text of the [error] field: it is
    "Perplexity " or "External search error: " followed by that text. *)
Theorem search_logs_exactly_on_failure self query search_type w :
  exists r w',
    search self query search_type w = (Ret r, w')
    /\ ((r !! "success" = Some (PBool true) /\ logged w' = logged w)
        \/ (r !! "success" = Some (PBool false)
            /\ exists error,
                 r !! "error" = Some (PStr error)
                 /\ (logged w' = logged w ++ ["Perplexity " +:+ error]
                     \/ logged w' = logged w ++ ["External search error: " +:+ error]))).
Proof.
  destruct (search_effects self query search_type w)
    as [[answer H] | [[status H] | [e H]]]; rewrite H; eexists _, _;
    (split; [reflexivity|]).
  - left. split; reflexivity.
  - right. split; [reflexivity|]. eexists. split; [reflexivity|].
    left. reflexivity.
  - right. split; [reflexivity|]. eexists. split; [reflexivity|].
    right. reflexivity.
Qed.

(** X9.  [search] reads the clock once when it succeeds, for the timestamp
    of the envelope, and not at all when it fails: a failure envelope is
    built without a reading and carries no timestamp. *)
Theorem search_reads_clock_only_on_success self query search_type w :
  exists r w',
    search self query search_type w = (Ret r, w')
    /\ ((r !! "success" = Some (PBool true)
         /\ r !! "timestamp" = Some (PStr (isoformat (clock w (clock_reads w))))
         /\ clock_reads w' = S (clock_reads w))
        \/ (r !! "success" = Some (PBool false)
            /\ r !! "timestamp" = None
            /\ clock_reads w' = clock_reads w)).
Proof.
  destruct (search_effects self query search_type w)
    as [[answer H] | [[status H] | [e H]]]; rewrite H; eexists _, _;
    (split; [reflexivity|]).
  - left. repeat split; reflexivity.
  - right. repeat split; reflexivity.
  - right. repeat split; reflexivity.
Qed.

(** X10.  A failure envelope has exactly the keys [success], [error] and
    [message]: it has no [search_type], [sources] or [timestamp].  A success
    envelope has exactly [success], [answer], [search_type], [sources] and
    [timestamp]: it has no [message]. *)
Theorem search_envelope_keys self query search_type w :
  exists r w',
    search self query search_type w = (Ret r, w')
    /\ ((r !! "success" = Some (PBool true)
         /\ dom r = ({[ "success"; "answer"; "search_type"; "sources";
                        "timestamp" ]} : gset string))
        \/ (r !! "success" = Some (PBool false)
            /\ dom r = ({[ "success"; "error"; "message" ]} : gset string))).
Proof.
  destruct (search_effects self query search_type w)
    as [[answer H] | [[status H] | [e H]]]; rewrite H; eexists _, _;
    (split; [reflexivity|]).
  - left. split; [reflexivity|].
    rewrite !dom_insert_L, dom_singleton_L. set_solver.
  - right. split; [reflexivity|].
    rewrite !dom_insert_L, dom_singleton_L. set_solver.
  - right. split; [reflexivity|].
    rewrite !dom_insert_L, dom_singleton_L. set_solver.
Qed.

(** X11.  On success [get_market_prices] reads the clock twice: the
    [timestamp] of the envelope is the first reading and [last_updated] of
    [price_data] the one after it, so the two stamps need not agree. *)
Theorem market_prices_stamps_are_two_readings
  self commodity market w resp result answer :
  transport w (search_request self
                 (_enhance_query (prices_query commodity market) "prices"))
    = Ret resp ->
  status_code resp = 200 ->
  json resp = Ret result ->
  answer_of result = Ret (PStr answer) ->
  exists r w' price_data,
    get_market_prices self commodity market w = (Ret r, w')
    /\ r !! "timestamp" = Some (PStr (isoformat (clock w (clock_reads w))))
    /\ r !! "price_data" = Some (PDict price_data)
    /\ price_data !! "last_updated"
       = Some (PStr (isoformat (clock w (S (clock_reads w)))))
    /\ clock_reads w' = S (S (clock_reads w)).
Proof.
  intros H Hs Hj Ha.
  pose proof (search_try_200 _ _ _ w resp H Hs) as E.
  rewrite Hj, Ha in E. simpl in E. apply search_passes in E.
  pose proof (call_on_success self (MarketPrices commodity market) w _ _
                (PStr answer) E eq_refl eq_refl) as Hc.
  simpl in Hc. eexists _, _, _. split; [exact Hc|].
  split; [reflexivity|]. split; [reflexivity|]. split; reflexivity.
Qed.

Lemma market_prices_stamps_are_two_readings_witness :
  exists r w' price_data,
    get_market_prices an_adapter "wheat" "Croatia"
      (world_replying
         (Ret {| status_code := 200;
                 json := Ret (completion_body "Wheat trades at 210.") |}))
    = (Ret r, w')
    /\ r !! "timestamp" = Some (PStr "2024-03-07T12:00:00")
    /\ r !! "price_data" = Some (PDict price_data)
    /\ price_data !! "last_updated" = Some (PStr "2024-03-07T12:00:01.000250")
    /\ clock_reads w' = 2%nat.
Proof.
  exact (market_prices_stamps_are_two_readings an_adapter "wheat" "Croatia"
           (world_replying
              (Ret {| status_code := 200;
                      json := Ret (completion_body "Wheat trades at 210.") |}))
           {| status_code := 200;
              json := Ret (completion_body "Wheat trades at 210.") |}
           (completion_body "Wheat trades at 210.")
           "Wheat trades at 210."
           eq_refl eq_refl eq_refl eq_refl).
Defined.

(** X12.  A 200 response whose JSON object lacks a field on the way to the
    answer gives a failure envelope whose [error] is the bare text of the
    Python exception: the quoted key for a missing [choices] or [message],
    "list index out of range" for an empty list of choices, and the
    complaint about [split] for a null content. *)
Theorem search_reports_missing_fields self query search_type w resp d :
  transport w (search_request self (_enhance_query query search_type)) = Ret resp ->
  status_code resp = 200 ->
  json resp = Ret (PDict d) ->
  (d !! "choices" = None ->
   fst (search self query search_type w) =
     Ret {[ "success" := PBool false;
            "error" := PStr "'choices'";
            "message" := PStr "Search service temporarily unavailable" ]})
  /\ (d !! "choices" = Some (PList []) ->
      fst (search self query search_type w) =
        Ret {[ "success" := PBool false;
               "error" := PStr "list index out of range";
               "message" := PStr "Search service temporarily unavailable" ]})
  /\ (forall choice others,
        d !! "choices" = Some (PList (PDict choice :: others)) ->
        choice !! "message" = None ->
        fst (search self query search_type w) =
          Ret {[ "success" := PBool false;
                 "error" := PStr "'message'";
                 "message" := PStr "Search service temporarily unavailable" ]})
  /\ (forall choice others message,
        d !! "choices" = Some (PList (PDict choice :: others)) ->
        choice !! "message" = Some (PDict message) ->
        message !! "content" = Some PNone ->
        fst (search self query search_type w) =
          Ret {[ "success" := PBool false;
                 "error" := PStr "'NoneType' object has no attribute 'split'";
                 "message" := PStr "Search service temporarily unavailable" ]}).
Proof.
  intros H Hs Hj.
  pose proof (search_try_200 _ _ _ w resp H Hs) as E. rewrite Hj in E.
  split; [|split; [|split]].
  - intros Hd. unfold answer_of, getitem in E. rewrite Hd in E.
    rewrite (search_catches _ _ _ _ _ _ E). reflexivity.
  - intros Hd. unfold answer_of, getitem in E. rewrite Hd in E. simpl in E.
    rewrite (search_catches _ _ _ _ _ _ E). reflexivity.
  - intros choice others Hd Hm. unfold answer_of, getitem in E.
    rewrite Hd in E. simpl in E. rewrite Hm in E.
    rewrite (search_catches _ _ _ _ _ _ E). reflexivity.
  - intros choice others message Hd Hm Hc. unfold answer_of, getitem in E.
    rewrite Hd in E. simpl in E. rewrite Hm, Hc in E. simpl in E.
    rewrite (search_catches _ _ _ _ _ _ E). reflexivity.
Qed.

Lemma search_reports_missing_fields_witness :
  fst (search an_adapter "soil acidity" "general"
         (world_replying (Ret {| status_code := 200; json := Ret (PDict ∅) |})))
  = Ret {[ "success" := PBool false;
           "error" := PStr "'choices'";
           "message" := PStr "Search service temporarily unavailable" ]}.
Proof.
  exact (proj1 (search_reports_missing_fields an_adapter "soil acidity" "general"
                  (world_replying
                     (Ret {| status_code := 200; json := Ret (PDict ∅) |}))
                  {| status_code := 200; json := Ret (PDict ∅) |} ∅
                  eq_refl eq_refl eq_refl)
           eq_refl).
Defined.

(** X13.  The adapter does not check its API key.  With the variable unset
    in the environment, [search] and [health_check] still send their
    request, authorized as "Bearer None"; with the variable set to [k] they
    send "Bearer k". *)
Theorem api_key_is_not_validated environ w :
  (environ !! "PERPLEXITY_API_KEY" = None ->
   (forall query search_type,
      exists req,
        sent (snd (search (__init__ environ) query search_type w)) = sent w ++ [req]
        /\ req_headers req !! "Authorization" = Some "Bearer None"
        /\ req_url req = "https://api.perplexity.ai/chat/completions")
   /\ (exists req,
         sent (snd (health_check (__init__ environ) w)) = sent w ++ [req]
         /\ req_headers req !! "Authorization" = Some "Bearer None"
         /\ req_url req = "https://api.perplexity.ai/models"))
  /\ (forall k,
        environ !! "PERPLEXITY_API_KEY" = Some k ->
        forall query search_type,
          exists req,
            sent (snd (search (__init__ environ) query search_type w))
            = sent w ++ [req]
            /\ req_headers req !! "Authorization" = Some ("Bearer " +:+ k)).
Proof.
  split.
  - intros Hk. split.
    + intros query search_type. eexists. split; [apply search_sends_once|].
      unfold search_request, __init__. simpl. rewrite Hk.
      split; reflexivity.
    + exists (health_request (__init__ environ)). split.
      * destruct (transport w (health_request (__init__ environ)))
          as [resp|e] eqn:H.
        -- rewrite (health_check_response _ _ _ H). reflexivity.
        -- rewrite (health_check_exception _ _ _ H). reflexivity.
      * unfold health_request, __init__. simpl. rewrite Hk.
        split; reflexivity.
  - intros k Hk query search_type. eexists. split; [apply search_sends_once|].
    unfold search_request, __init__. simpl. rewrite Hk. reflexivity.
Qed.

Lemma api_key_is_not_validated_witness :
  exists req,
    sent (snd (search (__init__ ∅) "frost warning" "weather"
                 (world_replying (Ret {| status_code := 401; json := Ret PNone |}))))
    = [req]
    /\ req_headers req !! "Authorization" = Some "Bearer None"
    /\ req_url req = "https://api.perplexity.ai/chat/completions".
Proof.
  exact (proj1 (proj1 (api_key_is_not_validated ∅
                         (world_replying
                            (Ret {| status_code := 401; json := Ret PNone |})))
                  eq_refl)
           "frost warning" "weather").
Defined.

(** X14.  A domain operation hands the failure of its search on as it is: on
    a status other than 200 it returns the "API error" envelope and on an
    exception caught by [search] the "temporarily unavailable" envelope,
    with no key of its own and no clock reading. *)
Theorem domain_call_returns_search_failure self c w :
  (forall resp,
     transport w (search_request self
                    (_enhance_query (call_query c) (call_search_type c)))
       = Ret resp ->
     status_code resp <> 200 ->
     call self c w =
       (Ret {[ "success" := PBool false;
               "error" := PStr ("API error: " +:+ pretty (status_code resp));
               "message" := PStr "Unable to fetch current information" ]},
        log_line ("Perplexity API error: " +:+ pretty (status_code resp))
          (record_request
             (search_request self
                (_enhance_query (call_query c) (call_search_type c))) w)))
  /\ (forall e,
        fails_with w (search_request self
                        (_enhance_query (call_query c) (call_search_type c))) e ->
        call self c w =
          (Ret {[ "success" := PBool false;
                  "error" := PStr (exn_text e);
                  "message" := PStr "Search service temporarily unavailable" ]},
           log_line ("External search error: " +:+ exn_text e)
             (record_request
                (search_request self
                   (_enhance_query (call_query c) (call_search_type c))) w))).
Proof.
  split.
  - intros resp H Hs. eapply call_on_failure; [|reflexivity].
    apply search_passes, (search_try_status _ _ _ w resp H Hs).
  - intros e H. eapply call_on_failure; [|reflexivity].
    apply search_catches, fails_with_raises, H.
Qed.

Lemma domain_call_returns_search_failure_witness :
  fst (call an_adapter (PestDiseaseAlerts "Slavonia" ["wheat"; "maize"])
         (world_replying (Ret {| status_code := 503; json := Ret PNone |})))
  = Ret {[ "success" := PBool false;
           "error" := PStr "API error: 503";
           "message" := PStr "Unable to fetch current information" ]}.
Proof.
  rewrite (proj1 (domain_call_returns_search_failure an_adapter
                    (PestDiseaseAlerts "Slavonia" ["wheat"; "maize"])
                    (world_replying
                       (Ret {| status_code := 503; json := Ret PNone |})))
             {| status_code := 503; json := Ret PNone |}
             eq_refl ltac:(discriminate)).
  reflexivity.
Defined.

Lemma app_inv_tail_str a b t : a +:+ t = b +:+ t -> a = b.
Proof.
  revert b. induction a as [|x a IH]; intros b H.
  - destruct b as [|y b]; [reflexivity|].
    apply (f_equal String.length) in H.
    rewrite app_nil_l, str_length_app in H. simpl in H. lia.
  - destruct b as [|y b].
    + apply (f_equal String.length) in H.
      rewrite app_nil_l, str_length_app in H. simpl in H. lia.
    + rewrite !app_cons in H. inversion H. f_equal. apply IH. assumption.
Qed.

(** Every part joined occurs in the joined text. *)
Lemma join_part sep parts p :
  p ∈ parts -> exists pre post, PyStr.join sep parts = pre +:+ p +:+ post.
Proof.
  induction parts as [|q qs IH]; intros Hp; [inversion Hp|].
  apply elem_of_cons in Hp as [->|Hp].
  - destruct qs as [|q' qs'].
    + exists "", "". simpl. rewrite app_nil_l, app_nil_r_str. reflexivity.
    + exists "", (sep +:+ PyStr.join sep (q' :: qs')). reflexivity.
  - destruct (IH Hp) as (pre & post & E).
    destruct qs as [|q' qs']; [inversion Hp|].
    exists (q +:+ sep +:+ pre), post.
    change (PyStr.join sep (q :: q' :: qs'))
      with (q +:+ sep +:+ PyStr.join sep (q' :: qs')).
    rewrite E, !app_assoc_str. reflexivity.
Qed.

(** X15.  Enhancement loses nothing of the query: for one search type, two
    different queries have different enhanced queries. *)
Theorem enhance_query_keeps_the_query search_type query query' :
  query <> query' ->
  _enhance_query query search_type <> _enhance_query query' search_type.
Proof.
  intros Hne H. apply Hne. rewrite !enhance_query_table in H.
  eapply app_inv_tail_str, H.
Qed.

Lemma enhance_query_keeps_the_query_witness :
  _enhance_query "hail" "weather" <> _enhance_query "hail." "weather".
Proof.
  apply enhance_query_keeps_the_query. discriminate.
Defined.

(** X16.  Every crop handed to [get_pest_disease_alerts] is named in the
    query it sends, and so is the region, whatever the number of crops. *)
Theorem alerts_query_names_every_crop self region crops crop w :
  crop ∈ crops ->
  PyStr.contains crop (alerts_query region crops) = true
  /\ PyStr.contains region (alerts_query region crops) = true
  /\ exists req,
       sent (snd (get_pest_disease_alerts self region crops w)) = sent w ++ [req]
       /\ user_content req
          = Some (PStr (_enhance_query (alerts_query region crops) "alerts")).
Proof.
  intros Hc. split; [|split].
  - destruct (join_part ", " crops crop Hc) as (pre & post & E).
    rewrite alerts_query_crops, E.
    set (head := "Current pest disease alerts warnings " +:+ region +:+ " for ").
    replace (head +:+ (pre +:+ crop +:+ post) +:+ " crops")
      with ((head +:+ pre) +:+ crop +:+ (post +:+ " crops"))
      by (rewrite !app_assoc_str; reflexivity).
    apply contains_app.
  - apply contains_app.
  - eexists. split.
    + apply (call_sends_once self (PestDiseaseAlerts region crops)).
    + reflexivity.
Qed.

Lemma alerts_query_names_every_crop_witness :
  PyStr.contains "barley"
    (alerts_query "Istria" ["wheat"; "barley"; "maize"]) = true.
Proof.
  refine (proj1 (alerts_query_names_every_crop an_adapter "Istria"
                   ["wheat"; "barley"; "maize"] "barley"
                   (world_replying (Raise connection_refused)) _)).
  right. left.
Defined.
